(** * RiskOps risk-scoring engine

    A shallow embedding of [risk_engine.py] and of the records of
    [schema.py] it computes on, followed by the properties of the engine.

    Numbers.  The engine computes on Python floats.  They are modelled by
    exact rationals [Q]: a decimal literal such as [0.35] is the rational
    35/100, arithmetic is exact, and [round(x, n)] rounds the exact value
    to [n] decimals, ties to even.  A double computation differs from the
    exact one by a relative error of the order of 1e-16 per operation;
    this can change the last digit of a rounded figure at a rounding tie
    and the level of a score at a threshold, and beyond 1e308 a product
    overflows.  The properties of the engine are stated so that they do
    not depend on it: a reported figure is compared with an exactly
    computed one up to the rounding step, with the room [float_slack]
    where the computed one is not itself a reported figure; a level is
    tied to the score it is read from; a cost is bounded under an explicit
    bound on the inputs; and every concrete run used below stays far away
    from a rounding tie or a threshold.  Two results of the engine are
    compared with [==] (equality of rationals).

    Strings.  Python [str] values are modelled by [string] (the bytes of
    the text); [lower] lowercases the letters A-Z and keeps every other
    byte.  The engine only compares lowercased strings with lowercase
    ASCII literals, none of which contains a letter that [str.lower]
    produces from a character outside A-Z, so the comparisons agree. *)

From Stdlib Require Import ZArith QArith Qround Qminmax Qabs Lqa Lia.
From Stdlib Require Import String Ascii List Bool DecimalString.
Import ListNotations.

Local Open Scope string_scope.
Local Open Scope Q_scope.

(* ================================================================= *)
(** ** Python numeric primitives *)

Module PyNum.

Definition Qlt_bool (x y : Q) : bool := negb (Qle_bool y x).

(** [min(a, b)] keeps [a] unless [b < a]; [max(a, b)] keeps [a] unless
    [b > a]. *)
Definition py_min (a b : Q) : Q := if Qlt_bool b a then b else a.
Definition py_max (a b : Q) : Q := if Qlt_bool a b then b else a.

(** [x or 0.0] on a float, and on an optional float. *)
Definition float_or_zero (x : Q) : Q := if Qeq_bool x 0 then 0 else x.
Definition opt_float_or_zero (o : option Q) : Q :=
  match o with
  | Some x => float_or_zero x
  | None => 0
  end.

(** Nearest integer, ties to the even neighbour. *)
Definition round_half_even (x : Q) : Z :=
  let f := Qfloor x in
  match Qcompare (x - inject_Z f) (1 # 2) with
  | Lt => f
  | Gt => (f + 1)%Z
  | Eq => if Z.even f then f else (f + 1)%Z
  end.

Definition pow10 (ndigits : nat) : Q := inject_Z (10 ^ Z.of_nat ndigits).

(** [round(x, ndigits)], on the exact value: a double that stands for a
    decimal tie lies a little off it, and Python rounds it to the nearer
    neighbour. *)
Definition py_round (x : Q) (ndigits : nat) : Q :=
  inject_Z (round_half_even (x * pow10 ndigits)) / pow10 ndigits.

(** [sum(xs)]: left fold from 0, added exactly (the double sum can differ
    in its last bits). *)
Definition py_sum (xs : list Q) : Q := fold_left Qplus xs 0.

Definition digits_of (z : Z) : string :=
  NilZero.string_of_uint (N.to_uint (Z.to_N z)).

(** [f"{x:.1f}"], on the exact value: the digits can differ from Python's
    at a tie of the decimal (17.05 gives 17.0 here; the double lies above
    the tie and Python prints 17.1). *)
Definition format_1f (x : Q) : string :=
  let n := Z.abs (round_half_even (x * 10)) in
  ((if Qlt_bool x 0 then "-" else "")
     ++ digits_of (n / 10) ++ "." ++ digits_of (n mod 10))%string.

End PyNum.
Import PyNum.

(* ================================================================= *)
(** ** Python string primitives *)

Module PyStr.

Definition lower_ascii (c : ascii) : ascii :=
  let n := nat_of_ascii c in
  if (65 <=? n)%nat && (n <=? 90)%nat then ascii_of_nat (n + 32) else c.

Fixpoint lower (s : string) : string :=
  match s with
  | EmptyString => EmptyString
  | String c s' => String (lower_ascii c) (lower s')
  end.

(** [s or d] on a string, and on an optional string. *)
Definition str_or (s d : string) : string :=
  if (s =? "")%string then d else s.
Definition opt_str_or (o : option string) (d : string) : string :=
  match o with
  | Some s => str_or s d
  | None => d
  end.

(** [sub in s] *)
Fixpoint contains (sub s : string) : bool :=
  String.prefix sub s
  || match s with
     | EmptyString => false
     | String _ s' => contains sub s'
     end.

End PyStr.
Import PyStr.

(* ================================================================= *)
(** ** schema.py *)

Record Detection := {
  id : string;
  label : string;
  substance_pred : string;
  confidence : Q;
  area_ratio : option Q
}.

Record Context := {
  site_id : string;
  zone_id : option string;
  zone_type : option string;
  proximity_to_machines : option string;
  floor_type : option string;
  production_value_per_hour : option Q
}.

Record RiskFactor := {
  name : string;
  value : Q;
  weight : Q;
  contribution : Q
}.

Record RiskResult := {
  image_id : string;
  global_severity_score : Q;
  global_severity_level : string;
  estimated_cost : Q;
  currency : string;
  factors : list RiskFactor;
  explanation : string;
  mitigated_severity_score : option Q;
  mitigated_severity_level : option string;
  mitigated_cost : option Q;
  risk_reduction_pct : option Q;
  recommendations : list string
}.

(* ================================================================= *)
(** ** risk_engine.py: scoring helpers *)

Definition _area_factor (area_ratio : Q) : Q :=
  if Qle_bool area_ratio 0.15 then 0.6
  else if Qle_bool area_ratio 0.35 then 1.0
  else 1.3.

Definition _physical_score (detection : Detection) (context : Context) : Q :=
  let substance := lower (str_or (substance_pred detection) "unknown") in
  let area_ratio := opt_float_or_zero (area_ratio detection) in
  let floor_type := lower (opt_str_or (floor_type context) "") in
  let base :=
    if (substance =? "water")%string then 20
    else if (substance =? "oil")%string then 40
    else if (substance =? "chemical")%string then 70
    else 30 in
  let af := _area_factor area_ratio in
  let floor_factor := if contains "absorbent" floor_type then 0.8 else 1.1 in
  let score := base * af * floor_factor in
  py_max 0.0 (py_min score 100.0).

Definition _electrical_score (detection : Detection) (context : Context) : Q :=
  let substance := lower (str_or (substance_pred detection) "unknown") in
  let zone_type := lower (opt_str_or (zone_type context) "") in
  let proximity := lower (opt_str_or (proximity_to_machines context) "") in
  let area_ratio := opt_float_or_zero (area_ratio detection) in
  let base :=
    if (zone_type =? "electrical_room")%string then
      if (substance =? "chemical")%string then 80
      else if (substance =? "water")%string then 60
      else if (substance =? "oil")%string then 40
      else 0.0
    else if ((zone_type =? "production") || (zone_type =? "storage"))%string then
      if ((proximity =? "near_machine")
          || (proximity =? "critical_machine"))%string then
        if (substance =? "chemical")%string then 50
        else if (substance =? "oil")%string then 40
        else if (substance =? "water")%string then 25
        else 0.0
      else 0.0
    else 0.0 in
  let af := _area_factor area_ratio in
  let score := base * af in
  py_max 0.0 (py_min score 100.0).

Definition _human_safety_score (detection : Detection) (context : Context) : Q :=
  let substance := lower (str_or (substance_pred detection) "unknown") in
  let proximity := lower (opt_str_or (proximity_to_machines context) "") in
  let area_ratio := opt_float_or_zero (area_ratio detection) in
  let base :=
    if (substance =? "water")%string then 20
    else if (substance =? "oil")%string then 40
    else if (substance =? "chemical")%string then 70
    else 30 in
  let af := _area_factor area_ratio in
  let pf :=
    if (proximity =? "far")%string then 0.7
    else if (proximity =? "near_machine")%string then 1.0
    else if (proximity =? "critical_machine")%string then 1.2
    else 1.0 in
  let score := base * af * pf in
  py_max 0.0 (py_min score 100.0).

Definition _business_score (detection : Detection) (context : Context) : Q :=
  let zone_type := lower (opt_str_or (zone_type context) "") in
  let area_ratio := opt_float_or_zero (area_ratio detection) in
  let prod_value := opt_float_or_zero (production_value_per_hour context) in
  let zone_mult :=
    if (zone_type =? "production")%string then 1.0
    else if (zone_type =? "electrical_room")%string then 0.8
    else if (zone_type =? "storage")%string then 0.7
    else 0.5 in
  let base := py_min (prod_value / 500.0) 100.0 in
  let af := _area_factor area_ratio in
  let score := base * af * zone_mult in
  py_max 0.0 (py_min score 100.0).

Definition _model_confidence_score (detection : Detection) : Q :=
  let conf := float_or_zero (confidence detection) in
  py_max 0.0 (py_min (conf * 100.0) 100.0).

Definition _severity_level (score : Q) : string :=
  if Qlt_bool score 25 then "LOW"
  else if Qlt_bool score 50 then "MEDIUM"
  else if Qlt_bool score 75 then "HIGH"
  else "CRITICAL".

(** The products are exact and never overflow; a double product beyond
    1.8e308 is infinite: the bounds on the reported costs are stated for
    inputs below 1e300. *)
Definition _estimate_cost (global_score : Q) (detection : Detection)
    (context : Context) : Q :=
  let prod_value := opt_float_or_zero (production_value_per_hour context) in
  let area_ratio := opt_float_or_zero (area_ratio detection) in
  let substance := lower (str_or (substance_pred detection) "unknown") in
  let hours_lost := py_min (4.0 * area_ratio) 4.0 in
  let dmg_factor :=
    if (substance =? "water")%string then 0.6
    else if (substance =? "oil")%string then 1.0
    else if (substance =? "chemical")%string then 2.0
    else 0.8 in
  let base_loss := prod_value * hours_lost * dmg_factor in
  let severity_factor := 0.5 + (global_score / 100.0) in
  let cost := base_loss * severity_factor in
  py_max 0.0 cost.

(** The recommendation texts. *)
Definition rec_isolate : string :=
  "Isoler la zone et baliser l'accès (cones, rubalise).".
Definition rec_oil : string :=
  "Nettoyage urgent avec kit absorbant adapté à l'huile.".
Definition rec_water : string :=
  "Sécher / nettoyer la zone pour éviter les chutes.".
Definition rec_chemical : string :=
  "Déclencher la procédure de déversement chimique (EPI, SDS, ventilation).".
Definition rec_power_cutoff : string :=
  "Couper l'alimentation électrique de la zone si possible et sécurisé.".
Definition rec_inform_hse : string :=
  "Informer immédiatement le responsable HSE / sécurité du site.".
Definition rec_document_root_causes : string :=
  "Documenter l'incident dans le registre HSE et analyser les causes racines.".
Definition rec_document : string :=
  "Documenter l'incident dans le registre HSE.".

Definition _build_recommendations (level : string) (detection : Detection)
    (context : Context) : list string :=
  let recs := [rec_isolate] in
  let substance := lower (str_or (substance_pred detection) "unknown") in
  let zone_type := lower (opt_str_or (zone_type context) "") in
  let recs :=
    if (substance =? "oil")%string then (recs ++ [rec_oil])%list
    else if (substance =? "water")%string then (recs ++ [rec_water])%list
    else if (substance =? "chemical")%string then (recs ++ [rec_chemical])%list
    else recs in
  let recs :=
    if (zone_type =? "electrical_room")%string
    then (recs ++ [rec_power_cutoff])%list else recs in
  let recs :=
    if ((level =? "HIGH") || (level =? "CRITICAL"))%string
    then ((recs ++ [rec_inform_hse]) ++ [rec_document_root_causes])%list
    else (recs ++ [rec_document])%list in
  recs.

Definition _build_explanation (level : string) (score : Q)
    (detection : Detection) (context : Context) : string :=
  let substance := str_or (substance_pred detection) "unknown" in
  let zone := opt_str_or (zone_type context) "unknown" in
  let proximity := opt_str_or (proximity_to_machines context) "unknown" in
  ("Incident classé " ++ level ++ " (score " ++ format_1f score ++ "/100). "
   ++ "Substance détectée : " ++ substance ++ ". "
   ++ "Zone : " ++ zone ++ ", proximité aux équipements : " ++ proximity ++ ". "
   ++ "Les scores détaillés (physique, électrique, humain, business, confiance modèle) "
   ++ "contribuent chacun au score global en fonction de leur poids.")%string.

(* ================================================================= *)
(** ** Mitigation *)

Definition _apply_mitigation (physical electrical human business model_conf : Q)
    : Q * Q * Q * Q * Q :=
  let physical_after := physical * 0.5 in
  let electrical_after := electrical * 0.5 in
  let human_after := human * 0.6 in
  let business_after := business * 0.7 in
  let model_conf_after := model_conf in
  (physical_after, electrical_after, human_after, business_after,
   model_conf_after).

(* ================================================================= *)
(** ** Main entry point *)

(** Step 2 of [build_risk_result]: the weights. *)
Definition w_physical : Q := 0.35.
Definition w_electrical : Q := 0.20.
Definition w_human : Q := 0.20.
Definition w_business : Q := 0.15.
Definition w_model_conf : Q := 0.10.

(** Step 3: the five factor entries, in insertion order. *)
Definition build_factors (physical electrical human business model_conf : Q)
    : list RiskFactor :=
  [ {| name := "physical";
       value := py_round physical 2;
       weight := w_physical;
       contribution := py_round (physical * w_physical) 3 |};
    {| name := "electrical";
       value := py_round electrical 2;
       weight := w_electrical;
       contribution := py_round (electrical * w_electrical) 3 |};
    {| name := "human_safety";
       value := py_round human 2;
       weight := w_human;
       contribution := py_round (human * w_human) 3 |};
    {| name := "business";
       value := py_round business 2;
       weight := w_business;
       contribution := py_round (business * w_business) 3 |};
    {| name := "model_confidence";
       value := py_round model_conf 2;
       weight := w_model_conf;
       contribution := py_round (model_conf * w_model_conf) 3 |} ].

(** Step 7: the weighted sum after mitigation. *)
Definition mitigated_score_of (physical electrical human business model_conf : Q)
    : Q :=
  let '(physical_after, electrical_after, human_after, business_after,
        model_conf_after) :=
    _apply_mitigation physical electrical human business model_conf in
  let factors_after :=
    [ physical_after * w_physical;
      electrical_after * w_electrical;
      human_after * w_human;
      business_after * w_business;
      model_conf_after * w_model_conf ] in
  py_sum factors_after.

Definition mitigated_cost_of (global_score estimated_cost mitigated_score : Q)
    : Q :=
  if Qlt_bool 0 global_score
  then estimated_cost * (mitigated_score / global_score)
  else 0.0.

Definition risk_reduction_pct_of (global_score mitigated_score : Q) : Q :=
  if Qlt_bool 0 global_score
  then (global_score - mitigated_score) / global_score * 100.0
  else 0.0.

(** The result of the degraded path (no detection). *)
Definition no_detection_explanation : string :=
  "Aucune détection fournie. Score de risque nul.".

(** The engine, with the five sub-score functions it calls as parameters. *)
Section Engine.

Variables physical_score electrical_score human_safety_score business_score
  : Detection -> Context -> Q.
Variable model_confidence_score : Detection -> Q.

Definition build_risk_result_with (image_id : string)
    (detections : list Detection) (context : Context) : RiskResult :=
  match detections with
  | [] =>
      {| image_id := image_id;
         global_severity_score := 0.0;
         global_severity_level := "LOW";
         estimated_cost := 0.0;
         currency := "EUR";
         factors := [];
         explanation := no_detection_explanation;
         recommendations := [];
         mitigated_severity_score := Some 0.0;
         mitigated_severity_level := Some "LOW";
         mitigated_cost := Some 0.0;
         risk_reduction_pct := Some 0.0 |}
  | det :: _ =>
      let physical := physical_score det context in
      let electrical := electrical_score det context in
      let human := human_safety_score det context in
      let business := business_score det context in
      let model_conf := model_confidence_score det in
      let factors :=
        build_factors physical electrical human business model_conf in
      let global_score := py_sum (map contribution factors) in
      let global_level := _severity_level global_score in
      let estimated_cost := _estimate_cost global_score det context in
      let explanation :=
        _build_explanation global_level global_score det context in
      let recommendations :=
        _build_recommendations global_level det context in
      let mitigated_score :=
        mitigated_score_of physical electrical human business model_conf in
      let mitigated_level := _severity_level mitigated_score in
      let mitigated_cost :=
        mitigated_cost_of global_score estimated_cost mitigated_score in
      let risk_reduction_pct :=
        risk_reduction_pct_of global_score mitigated_score in
      {| image_id := image_id;
         global_severity_score := py_round global_score 2;
         global_severity_level := global_level;
         estimated_cost := py_round estimated_cost 2;
         currency := "EUR";
         factors := factors;
         explanation := explanation;
         recommendations := recommendations;
         mitigated_severity_score := Some (py_round mitigated_score 2);
         mitigated_severity_level := Some mitigated_level;
         mitigated_cost := Some (py_round mitigated_cost 2);
         risk_reduction_pct := Some (py_round risk_reduction_pct 1) |}
  end.

End Engine.

Definition build_risk_result : string -> list Detection -> Context -> RiskResult :=
  build_risk_result_with _physical_score _electrical_score _human_safety_score
    _business_score _model_confidence_score.

(** The local variables of [build_risk_result] on its normal path, as
    functions of the first detection and the context. *)
Definition global_score_of (det : Detection) (context : Context) : Q :=
  py_sum (map contribution
            (build_factors (_physical_score det context)
               (_electrical_score det context)
               (_human_safety_score det context)
               (_business_score det context)
               (_model_confidence_score det))).

Definition mitigated_score_at (det : Detection) (context : Context) : Q :=
  mitigated_score_of (_physical_score det context)
    (_electrical_score det context) (_human_safety_score det context)
    (_business_score det context) (_model_confidence_score det).

Definition estimated_cost_at (det : Detection) (context : Context) : Q :=
  _estimate_cost (global_score_of det context) det context.

Definition mitigated_cost_at (det : Detection) (context : Context) : Q :=
  mitigated_cost_of (global_score_of det context) (estimated_cost_at det context)
    (mitigated_score_at det context).

(** Room left for binary64 rounding.  The engine adds and multiplies
    doubles, so a value it computes can differ from the exactly computed one
    in its last bits (by less than 1e-12 for values up to 100), and at a
    rounding tie [round] can go either way.  Statements that compare a
    reported field with an exactly computed value leave this room. *)
Definition float_slack : Q := 0.000000001.

(* ================================================================= *)
(** ** The tables of the specification

    The specification describes the engine through recognised substances,
    zones and proximities.  The definitions below follow its wording; the
    theorems compare them with the code above. *)

Inductive Substance := Water | Oil | Chemical | OtherSubstance.
Inductive Zone := ElectricalRoom | Production | Storage | OtherZone.
Inductive Proximity := Far | NearMachine | CriticalMachine | OtherProximity.
Inductive Level := LOW | MEDIUM | HIGH | CRITICAL.

Definition substance_of (detection : Detection) : Substance :=
  let s := lower (str_or (substance_pred detection) "unknown") in
  if (s =? "water")%string then Water
  else if (s =? "oil")%string then Oil
  else if (s =? "chemical")%string then Chemical
  else OtherSubstance.

Definition zone_of (context : Context) : Zone :=
  let z := lower (opt_str_or (zone_type context) "") in
  if (z =? "electrical_room")%string then ElectricalRoom
  else if (z =? "production")%string then Production
  else if (z =? "storage")%string then Storage
  else OtherZone.

Definition proximity_of (context : Context) : Proximity :=
  let p := lower (opt_str_or (proximity_to_machines context) "") in
  if (p =? "far")%string then Far
  else if (p =? "near_machine")%string then NearMachine
  else if (p =? "critical_machine")%string then CriticalMachine
  else OtherProximity.

Definition level_name (l : Level) : string :=
  match l with
  | LOW => "LOW"
  | MEDIUM => "MEDIUM"
  | HIGH => "HIGH"
  | CRITICAL => "CRITICAL"
  end.

(** Specification, classification: below 25, below 50, below 75, else. *)
Definition spec_level (score : Q) : Level :=
  if Qlt_le_dec score 25 then LOW
  else if Qlt_le_dec score 50 then MEDIUM
  else if Qlt_le_dec score 75 then HIGH
  else CRITICAL.

(** Specification, electrical sub-score: the base table. *)
Definition spec_electrical_base (z : Zone) (p : Proximity) (s : Substance) : Q :=
  match z with
  | ElectricalRoom =>
      match s with
      | Chemical => 80
      | Water => 60
      | Oil => 40
      | OtherSubstance => 0
      end
  | Production | Storage =>
      match p with
      | NearMachine | CriticalMachine =>
          match s with
          | Chemical => 50
          | Oil => 40
          | Water => 25
          | OtherSubstance => 0
          end
      | Far | OtherProximity => 0
      end
  | OtherZone => 0
  end.

Definition clamp_0_100 (x : Q) : Q := Qmax 0 (Qmin x 100).

Definition spec_electrical_score (detection : Detection) (context : Context)
    : Q :=
  clamp_0_100
    (spec_electrical_base (zone_of context) (proximity_of context)
       (substance_of detection)
     * _area_factor (opt_float_or_zero (area_ratio detection))).

(** Specification, recommendations: the parts of the list, in order. *)
Definition substance_recs (s : Substance) : list string :=
  match s with
  | Oil => [rec_oil]
  | Water => [rec_water]
  | Chemical => [rec_chemical]
  | OtherSubstance => []
  end.

Definition zone_recs (z : Zone) : list string :=
  match z with
  | ElectricalRoom => [rec_power_cutoff]
  | _ => []
  end.

Definition high_or_critical (level : string) : bool :=
  ((level =? "HIGH") || (level =? "CRITICAL"))%string.

(** The list as the specification words it: one closing instruction. *)
Definition spec_recommendations (level : string) (s : Substance) (z : Zone)
    : list string :=
  [rec_isolate] ++ substance_recs s ++ zone_recs z
    ++ (if high_or_critical level then [rec_inform_hse] else [rec_document]).

(** The contribution of a factor recomputed from its reported value. *)
Definition contribution_from_reported (f : RiskFactor) : Q :=
  py_round (value f * weight f) 3.

(* ================================================================= *)
(** ** Sample inputs *)

Definition oil_detection (conf : Q) : Detection :=
  {| id := "det_1"; label := "spill"; substance_pred := "oil";
     confidence := conf; area_ratio := Some 0.30 |}.

Definition production_context (floor : string) (prod_value : Q) : Context :=
  {| site_id := "SITE_001"; zone_id := Some "Z1";
     zone_type := Some "production";
     proximity_to_machines := Some "near_machine";
     floor_type := Some floor;
     production_value_per_hour := Some prod_value |}.

(** The scenario of the specification. *)
Definition scenario_result : RiskResult :=
  build_risk_result "img_001" [oil_detection 0.93]
    (production_context "non_absorbent" 8000).

(** The same scenario on a floor whose description does not mention
    absorbency. *)
Definition concrete_floor_result (conf prod_value : Q) : RiskResult :=
  build_risk_result "img_001" [oil_detection conf]
    (production_context "concrete" prod_value).

Definition chemical_detection : Detection :=
  {| id := "det_1"; label := "spill"; substance_pred := "chemical";
     confidence := 0.9; area_ratio := Some 0.5 |}.

Definition electrical_room_context : Context :=
  {| site_id := "SITE_001"; zone_id := Some "Z1";
     zone_type := Some "electrical_room";
     proximity_to_machines := Some "critical_machine";
     floor_type := Some "concrete";
     production_value_per_hour := Some 15000 |}.

Definition electrical_room_result : RiskResult :=
  build_risk_result "img_002" [chemical_detection] electrical_room_context.

(* ================================================================= *)
(** ** Tables of the other sub-scores

    The base values and factors that [_physical_score],
    [_human_safety_score] and [_business_score] select with their string
    tests, as tables over the recognised substances, proximities and
    zones. *)

Definition substance_base (s : Substance) : Q :=
  match s with
  | Water => 20
  | Oil => 40
  | Chemical => 70
  | OtherSubstance => 30
  end.

Definition floor_is_absorbent (context : Context) : bool :=
  contains "absorbent" (lower (opt_str_or (floor_type context) "")).

Definition floor_factor_of (context : Context) : Q :=
  if floor_is_absorbent context then 0.8 else 1.1.

Definition proximity_factor (p : Proximity) : Q :=
  match p with
  | Far => 0.7
  | NearMachine => 1.0
  | CriticalMachine => 1.2
  | OtherProximity => 1.0
  end.

Definition zone_multiplier (z : Zone) : Q :=
  match z with
  | Production => 1.0
  | ElectricalRoom => 0.8
  | Storage => 0.7
  | OtherZone => 0.5
  end.

Definition damage_factor (s : Substance) : Q :=
  match s with
  | Water => 0.6
  | Oil => 1.0
  | Chemical => 2.0
  | OtherSubstance => 0.8
  end.

Definition level_rank (l : Level) : nat :=
  match l with
  | LOW => 0
  | MEDIUM => 1
  | HIGH => 2
  | CRITICAL => 3
  end.

(** The inputs of a detection and of a context as the engine reads them. *)
Definition area_of (det : Detection) : Q :=
  opt_float_or_zero (area_ratio det).

Definition production_value_of (context : Context) : Q :=
  opt_float_or_zero (production_value_per_hour context).

(* ================================================================= *)
(** ** More Python string and format primitives *)

Module PyText.

Definition pad_digits (width : nat) (z : Z) : string :=
  let d := digits_of z in
  (string_of_list_ascii (repeat "0"%char (width - String.length d)) ++ d)%string.

(** [f"{x:.2f}"] *)
Definition format_2f (x : Q) : string :=
  let n := Z.abs (round_half_even (x * 100)) in
  ((if Qlt_bool x 0 then "-" else "")
     ++ digits_of (n / 100) ++ "." ++ pad_digits 2 (n mod 100))%string.

(** Digits from the least significant one: a comma before every fourth. *)
Fixpoint commas_rev (l : list ascii) (k : nat) : list ascii :=
  match l with
  | [] => []
  | c :: l' =>
      match k with
      | O => ","%char :: c :: commas_rev l' 2
      | S k' => c :: commas_rev l' k'
      end
  end.

Definition group_thousands (digits : string) : string :=
  string_of_list_ascii
    (rev (commas_rev (rev (list_ascii_of_string digits)) 3)).

(** [f"{x:,.0f}"] *)
Definition format_comma_0f (x : Q) : string :=
  let n := Z.abs (round_half_even x) in
  ((if Qlt_bool x 0 then "-" else "") ++ group_thousands (digits_of n))%string.

(** [s.split(". ")] *)
Fixpoint split_dot_space (s : string) : list string :=
  match s with
  | EmptyString => [EmptyString]
  | String c s' =>
      match c, s' with
      | "."%char, String " "%char s'' => EmptyString :: split_dot_space s''
      | _, _ =>
          match split_dot_space s' with
          | part :: parts => String c part :: parts
          | [] => [String c EmptyString]
          end
      end
  end.

(** The number of leading bytes of [l] that encode one whitespace
    character (0 when [l] does not start with whitespace): 09-0D, 1C-1F,
    20, and in UTF-8 U+0085, U+00A0, U+1680, U+2000-U+200A, U+2028, U+2029,
    U+202F, U+205F, U+3000. *)
Definition space_width (l : list nat) : nat :=
  match l with
  | b :: l1 =>
      if ((9 <=? b) && (b <=? 13)) || ((28 <=? b) && (b <=? 32)) then 1
      else
        match l1 with
        | b1 :: l2 =>
            if (b =? 194) && ((b1 =? 133) || (b1 =? 160)) then 2
            else
              match l2 with
              | b2 :: _ =>
                  if (b =? 225) && (b1 =? 154) && (b2 =? 128) then 3
                  else if (b =? 226) && (b1 =? 128)
                          && (((128 <=? b2) && (b2 <=? 138))
                              || (b2 =? 168) || (b2 =? 169) || (b2 =? 175))
                  then 3
                  else if (b =? 226) && (b1 =? 129) && (b2 =? 159) then 3
                  else if (b =? 227) && (b1 =? 128) && (b2 =? 128) then 3
                  else 0
              | [] => 0
              end
        | [] => 0
        end
  | [] => 0
  end%nat.

(** The same, for the trailing bytes of a string given last byte first. *)
Definition space_width_rev (l : list nat) : nat :=
  match l with
  | b :: l1 =>
      if ((9 <=? b) && (b <=? 13)) || ((28 <=? b) && (b <=? 32)) then 1
      else
        match l1 with
        | b1 :: l2 =>
            if (b1 =? 194) && ((b =? 133) || (b =? 160)) then 2
            else
              match l2 with
              | b2 :: _ => space_width [b2; b1; b]
              | [] => 0
              end
        | [] => 0
        end
  | [] => 0
  end%nat.

Fixpoint strip_front (width : list nat -> nat) (fuel : nat) (l : list nat)
    : list nat :=
  match fuel with
  | O => l
  | S fuel' =>
      match width l with
      | O => l
      | n => strip_front width fuel' (skipn n l)
      end
  end.

Definition bytes_of (s : string) : list nat :=
  map nat_of_ascii (list_ascii_of_string s).

Definition string_of_bytes (l : list nat) : string :=
  string_of_list_ascii (map ascii_of_nat l).

(** [s.strip()] *)
Definition strip (s : string) : string :=
  let l := strip_front space_width (String.length s) (bytes_of s) in
  let r := strip_front space_width_rev (String.length s) (rev l) in
  string_of_bytes (rev r).

(** [s.upper()] as far as the keys LOW, MEDIUM, HIGH and CRITICAL can tell:
    the letters a-z are raised, the dotless i (U+0131, bytes C4 B1) becomes
    I, and every other byte is kept.  No other character has an uppercase
    made of letters of these keys (the remaining ones with an ASCII
    uppercase give S or F). *)
Fixpoint upper_bytes (l : list nat) : list nat :=
  match l with
  | [] => []
  | b :: l1 =>
      match l1 with
      | b1 :: l2 =>
          if ((b =? 196) && (b1 =? 177))%nat then 73%nat :: upper_bytes l2
          else (if ((97 <=? b) && (b <=? 122))%nat then (b - 32)%nat else b)
                 :: upper_bytes l1
      | [] => [if ((97 <=? b) && (b <=? 122))%nat then (b - 32)%nat else b]
      end
  end.

Definition upper (s : string) : string := string_of_bytes (upper_bytes (bytes_of s)).

End PyText.
Import PyText.

(* ================================================================= *)
(** ** incident_report.py

    [generate_incident_pdf] drives a reportlab canvas and returns the bytes
    the canvas produced.  The model returns the calls made on the canvas,
    in order; the cursor [y] is threaded through them, one definition per
    commented part of the function.  The page size and
    the length unit are reportlab's: [inch = 72.0], [cm = inch / 2.54],
    [mm = cm * 0.1], [A4 = (210 * mm, 297 * mm)]. *)

Definition inch : Q := 72.
Definition cm : Q := inch / 2.54.
Definition mm : Q := cm * 0.1.
Definition A4 : Q * Q := (210 * mm, 297 * mm).

(** The text object built by [beginText], [setLeading], [textLine]. *)
Record TextObject := {
  text_x : Q;
  text_y : Q;
  leading : Q;
  text_lines : list string
}.

Inductive CanvasOp :=
| SetFont (psfontname : string) (size : Q)
| DrawString (x y : Q) (text : string)
| DrawText (text_obj : TextObject)
| ShowPage
| Save.

(** The canvas calls made so far and the cursor. *)
Record Pen := { ops : list CanvasOp; y : Q }.

Definition emit (pen : Pen) (op : CanvasOp) : Pen :=
  {| ops := ops pen ++ [op]; y := y pen |}.

Definition move_down (pen : Pen) (dy : Q) : Pen :=
  {| ops := ops pen; y := y pen - dy |}.

Definition height : Q := snd A4.

(** The end of the body of both loops: a new page when the cursor has
    come below 3 cm. *)
Definition break_page_if_low (pen : Pen) : Pen :=
  if Qlt_bool (y pen) (3 * cm)
  then emit {| ops := ops (emit pen ShowPage); y := height - 2 * cm |}
         (SetFont "Helvetica" 10)
  else pen.

(** How [f"{v}"] prints an optional string. *)
Definition str_of_opt (o : option string) : string :=
  match o with
  | Some s => s
  | None => "None"
  end.

Definition factor_line (f : RiskFactor) : string :=
  ("- " ++ name f ++ " : score " ++ format_1f (value f) ++ "/100, poids "
   ++ format_2f (weight f) ++ ", contribution " ++ format_1f (contribution f))
  %string.

Definition draw_factor (pen : Pen) (f : RiskFactor) : Pen :=
  let pen := emit pen (DrawString (2 * cm) (y pen) (factor_line f)) in
  let pen := move_down pen (0.6 * cm) in
  break_page_if_low pen.

Definition draw_recommendation (pen : Pen) (rec : string) : Pen :=
  let pen := emit pen (DrawString (2 * cm) (y pen) ("- " ++ rec)%string) in
  let pen := move_down pen (0.6 * cm) in
  break_page_if_low pen.

(** Title, identifier, levels, costs and risk reduction. *)
Definition draw_summary (result : RiskResult) : Pen :=
  let pen := {| ops := []; y := height - 2 * cm |} in
  let pen := emit pen (SetFont "Helvetica-Bold" 16) in
  let pen :=
    emit pen
      (DrawString (2 * cm) (y pen) "TRELOXAI - Rapport d'incident RiskOps") in
  let pen := move_down pen (1.5 * cm) in
  let pen := emit pen (SetFont "Helvetica" 11) in
  let pen :=
    emit pen
      (DrawString (2 * cm) (y pen) ("Image ID : " ++ image_id result)%string) in
  let pen := move_down pen (0.7 * cm) in
  let pen :=
    emit pen
      (DrawString (2 * cm) (y pen)
         ("Niveau de risque : " ++ global_severity_level result ++ " ("
          ++ format_1f (global_severity_score result) ++ "/100)")%string) in
  let pen := move_down pen (0.7 * cm) in
  let pen :=
    match mitigated_severity_score result with
    | Some score =>
        let pen :=
          emit pen
            (DrawString (2 * cm) (y pen)
               ("Après mitigation : "
                ++ str_of_opt (mitigated_severity_level result) ++ " ("
                ++ format_1f score ++ "/100)")%string) in
        move_down pen (0.7 * cm)
    | None => pen
    end in
  let pen :=
    emit pen
      (DrawString (2 * cm) (y pen)
         ("Coût estimé : " ++ format_comma_0f (estimated_cost result) ++ " "
          ++ currency result)%string) in
  let pen := move_down pen (0.7 * cm) in
  let pen :=
    match mitigated_cost result with
    | Some cost =>
        let pen :=
          emit pen
            (DrawString (2 * cm) (y pen)
               ("Coût estimé après mitigation : " ++ format_comma_0f cost
                ++ " " ++ currency result)%string) in
        move_down pen (0.7 * cm)
    | None => pen
    end in
  match risk_reduction_pct result with
  | Some pct =>
      let pen :=
        emit pen
          (DrawString (2 * cm) (y pen)
             ("Réduction de risque estimée : " ++ format_1f pct ++ " %")
             %string) in
      move_down pen (1.0 * cm)
  | None => pen
  end.

(** "# Facteurs" *)
Definition draw_factors (result : RiskResult) (pen : Pen) : Pen :=
  let pen := emit pen (SetFont "Helvetica-Bold" 12) in
  let pen := emit pen (DrawString (2 * cm) (y pen) "Facteurs de risque :") in
  let pen := move_down pen (0.8 * cm) in
  let pen := emit pen (SetFont "Helvetica" 10) in
  fold_left draw_factor (factors result) pen.

(** "# Recommandations" *)
Definition draw_recommendations (result : RiskResult) (pen : Pen) : Pen :=
  let pen := move_down pen (0.5 * cm) in
  let pen := emit pen (SetFont "Helvetica-Bold" 12) in
  let pen := emit pen (DrawString (2 * cm) (y pen) "Recommandations :") in
  let pen := move_down pen (0.8 * cm) in
  let pen := emit pen (SetFont "Helvetica" 10) in
  fold_left draw_recommendation (recommendations result) pen.

(** "# Explication" *)
Definition draw_explanation (result : RiskResult) (pen : Pen) : Pen :=
  let pen := move_down pen (0.5 * cm) in
  let pen := emit pen (SetFont "Helvetica-Bold" 12) in
  let pen := emit pen (DrawString (2 * cm) (y pen) "Explication détaillée :") in
  let pen := move_down pen (0.8 * cm) in
  let pen := emit pen (SetFont "Helvetica" 10) in
  let text_obj :=
    {| text_x := 2 * cm; text_y := y pen; leading := 14;
       text_lines := map strip (split_dot_space (explanation result)) |} in
  emit pen (DrawText text_obj).

Definition generate_incident_pen (result : RiskResult) : Pen :=
  let pen := draw_summary result in
  let pen := draw_factors result pen in
  let pen := draw_recommendations result pen in
  let pen := draw_explanation result pen in
  let pen := emit pen ShowPage in
  emit pen Save.

(** The calls [generate_incident_pdf] makes on its canvas. *)
Definition generate_incident_pdf (result : RiskResult) : list CanvasOp :=
  ops (generate_incident_pen result).

(** The length of a list, as a rational. *)
Definition qlen {A : Type} (items : list A) : Q :=
  inject_Z (Z.of_nat (length items)).

Definition is_show_page (op : CanvasOp) : bool :=
  match op with
  | ShowPage => true
  | _ => false
  end.

(** The number of pages of a report. *)
Definition page_count (trace : list CanvasOp) : nat :=
  length (filter is_show_page trace).

(** Where a canvas call puts its text: every string at x = 2 cm and
    between [low] and the top margin, the text block not below
    [low - 0.8 cm]. *)
Definition placed_above (low : Q) (op : CanvasOp) : Prop :=
  match op with
  | DrawString x y _ => x == 2 * cm /\ low <= y <= height - 2 * cm
  | DrawText t =>
      text_x t == 2 * cm /\ low - 0.8 * cm <= text_y t <= height - 2 * cm
  | _ => True
  end.

(* ================================================================= *)
(** ** risk_dashboard.py: [level_color] *)

Definition default_color : string := "#111827".

Definition level_color (level : option string) : string :=
  match level with
  | None => default_color
  | Some level =>
      if (level =? "")%string then default_color
      else
        let lvl := upper level in
        if (lvl =? "LOW")%string then "#16a34a"
        else if (lvl =? "MEDIUM")%string then "#ea580c"
        else if (lvl =? "HIGH")%string then "#b91c1c"
        else if (lvl =? "CRITICAL")%string then "#7f1d1d"
        else default_color
  end.

(* ================================================================= *)
(** ** The primitives on small inputs *)

Example round_half_even_ties :
  map round_half_even [0.5; 1.5; 2.5; -0.5; 2.4; 2.6] = [0; 2; 2; 0; 2; 3]%Z.
Proof. reflexivity. Qed.

Example py_round_examples :
  Forall2 Qeq [py_round 43.112 2; py_round 0.0006 3; py_round 0.004 2]
    [43.11; 0.001; 0].
Proof. repeat constructor. Qed.

Example format_1f_examples :
  map format_1f [38.9; 43.112; 0; 100] = ["38.9"; "43.1"; "0.0"; "100.0"].
Proof. reflexivity. Qed.

Example lower_example : lower "Electrical_Room" = "electrical_room".
Proof. reflexivity. Qed.

Example contains_examples :
  map (contains "absorbent") ["absorbent"; "non_absorbent"; "concrete"; ""]
  = [true; true; false; false].
Proof. reflexivity. Qed.

Example format_examples :
  map format_comma_0f [1234567.5; -0.4; 0.5; 1.5; 999.5; -1234; 8937.6]
  = ["1,234,568"; "-0"; "0"; "2"; "1,000"; "-1,234"; "8,938"]
  /\ map format_2f [0.35; 0.2; 0.125; -0.001; 12]
     = ["0.35"; "0.20"; "0.12"; "-0.00"; "12.00"].
Proof. split; reflexivity. Qed.

Example split_examples :
  split_dot_space " a. b.  c. " = [" a"; "b"; " c"; ""]
  /\ split_dot_space "" = [""]
  /\ split_dot_space "a. . b" = ["a"; ""; "b"].
Proof. repeat split. Qed.

Example strip_examples :
  map strip ["  a b "; " "; ""; "x"; String (ascii_of_nat 9) "a. "]
  = ["a b"; ""; ""; "x"; "a."]
  /\ strip (string_of_bytes [194; 160; 97; 226; 128; 168; 10]%nat) = "a".
Proof. split; reflexivity. Qed.

Example upper_examples :
  map upper ["low"; "Medium"; "critical"; "x-1"]
  = ["LOW"; "MEDIUM"; "CRITICAL"; "X-1"]
  /\ upper (string_of_bytes [99; 114; 196; 177; 116]%nat) = "CRIT".
Proof. split; reflexivity. Qed.

Example area_factor_steps :
  map _area_factor [0; 0.15; 0.16; 0.35; 0.36; 1] = [0.6; 0.6; 1.0; 1.0; 1.3; 1.3].
Proof. reflexivity. Qed.

(* ================================================================= *)
(** ** Facts about the numeric primitives *)

Section Reflection.

Lemma Qlt_bool_spec (x y : Q) : reflect (x < y) (Qlt_bool x y).
Proof.
  unfold Qlt_bool.
  destruct (Qle_bool y x) eqn:E; constructor.
  - apply Qle_bool_iff in E. now apply Qle_not_lt.
  - apply Qnot_le_lt. intro H. apply Qle_bool_iff in H. congruence.
Qed.

Lemma Qle_bool_spec (x y : Q) : reflect (x <= y) (Qle_bool x y).
Proof.
  destruct (Qle_bool x y) eqn:E; constructor.
  - now apply Qle_bool_iff.
  - intro H. apply Qle_bool_iff in H. congruence.
Qed.

Lemma py_min_Qmin (a b : Q) : py_min a b == Qmin a b.
Proof.
  unfold py_min. destruct (Qlt_bool_spec b a) as [H | H].
  - symmetry. apply Q.min_r. lra.
  - symmetry. apply Q.min_l. lra.
Qed.

Lemma py_max_Qmax (a b : Q) : py_max a b == Qmax a b.
Proof.
  unfold py_max. destruct (Qlt_bool_spec a b) as [H | H].
  - symmetry. apply Q.max_r. lra.
  - symmetry. apply Q.max_l. lra.
Qed.

Lemma py_min_le_l (a b : Q) : py_min a b <= a.
Proof. unfold py_min. destruct (Qlt_bool_spec b a); lra. Qed.

Lemma py_min_le_r (a b : Q) : py_min a b <= b.
Proof. unfold py_min. destruct (Qlt_bool_spec b a); lra. Qed.

End Reflection.

(** Case analysis on every comparison of the goal. *)
Ltac qcases :=
  repeat match goal with
    | |- context [Qlt_bool ?a ?b] => destruct (Qlt_bool_spec a b)
    | |- context [Qle_bool ?a ?b] => destruct (Qle_bool_spec a b)
    end.

Section NumFacts.

(** The clamp [max(0.0, min(score, 100.0))] lands in [0, 100]. *)
Lemma clamp_bounds (score : Q) :
  0 <= py_max 0.0 (py_min score 100.0) <= 100.
Proof. unfold py_min. qcases; unfold py_max; qcases; lra. Qed.

Lemma clamp_id (score : Q) :
  0 <= score <= 100 -> py_max 0.0 (py_min score 100.0) == score.
Proof.
  intros [H0 H1]. unfold py_min. qcases; unfold py_max; qcases; lra.
Qed.

Lemma clamp_spec (score : Q) :
  py_max 0.0 (py_min score 100.0) == clamp_0_100 score.
Proof.
  unfold clamp_0_100. rewrite py_max_Qmax.
  apply Q.max_compat; [lra |].
  rewrite py_min_Qmin. apply Q.min_compat; [reflexivity | lra].
Qed.

Lemma float_or_zero_eq (x : Q) : float_or_zero x == x.
Proof.
  unfold float_or_zero. destruct (Qeq_bool x 0) eqn:E; [| reflexivity].
  apply Qeq_bool_eq in E. now symmetry.
Qed.

(** [round_half_even x] is within one half of [x]. *)
Lemma round_half_even_near (x : Q) :
  x - (1 # 2) <= inject_Z (round_half_even x) <= x + (1 # 2).
Proof.
  unfold round_half_even.
  pose proof (Qfloor_le x) as Hlo.
  pose proof (Qlt_floor x) as Hhi.
  rewrite inject_Z_plus in Hhi. change (inject_Z 1) with 1 in Hhi.
  destruct (Qcompare_spec (x - inject_Z (Qfloor x)) (1 # 2)) as [E | E | E].
  - destruct (Z.even (Qfloor x)).
    + lra.
    + rewrite inject_Z_plus. change (inject_Z 1) with 1. lra.
  - lra.
  - rewrite inject_Z_plus. change (inject_Z 1) with 1. lra.
Qed.

Lemma round_half_even_comp (x y : Q) :
  x == y -> round_half_even x = round_half_even y.
Proof.
  intro E. unfold round_half_even.
  rewrite (Qfloor_comp x y E).
  assert (C : Qcompare (x - inject_Z (Qfloor y)) (1 # 2)
              = Qcompare (y - inject_Z (Qfloor y)) (1 # 2)).
  { apply Qcompare_comp; [now rewrite E | reflexivity]. }
  now rewrite C.
Qed.

Lemma round_half_even_mono (x y : Q) :
  x <= y -> (round_half_even x <= round_half_even y)%Z.
Proof.
  intro Hxy.
  destruct (Z_le_gt_dec (round_half_even x) (round_half_even y))
    as [H | H]; [exact H | exfalso].
  assert (H1 : (round_half_even y + 1 <= round_half_even x)%Z) by lia.
  rewrite Zle_Qle, inject_Z_plus in H1.
  change (inject_Z 1) with 1 in H1.
  pose proof (round_half_even_near x) as [_ Hx].
  pose proof (round_half_even_near y) as [Hy _].
  assert (E : x == y) by lra.
  apply round_half_even_comp in E. lia.
Qed.

Lemma round_half_even_Z (z : Z) : round_half_even (inject_Z z) = z.
Proof.
  unfold round_half_even. rewrite Qfloor_Z.
  destruct (Qcompare_spec (inject_Z z - inject_Z z) (1 # 2)) as [E | E | E];
    [lra | reflexivity | lra].
Qed.

Lemma pow10_pos (n : nat) : 0 < pow10 n.
Proof.
  unfold pow10. change 0 with (inject_Z 0). rewrite <- Zlt_Qlt.
  apply Z.pow_pos_nonneg; lia.
Qed.

Lemma py_round_mono (x y : Q) (n : nat) :
  x <= y -> py_round x n <= py_round y n.
Proof.
  intro H. unfold py_round, Qdiv.
  pose proof (pow10_pos n) as Hp.
  apply Qmult_le_compat_r.
  - rewrite <- Zle_Qle. apply round_half_even_mono.
    apply Qmult_le_compat_r; [exact H | lra].
  - apply Qinv_le_0_compat. lra.
Qed.

Lemma py_round_comp (x y : Q) (n : nat) :
  x == y -> py_round x n == py_round y n.
Proof.
  intro E. unfold py_round.
  rewrite (round_half_even_comp (x * pow10 n) (y * pow10 n)).
  - reflexivity.
  - now rewrite E.
Qed.

(** A value with at most [n] decimals is left unchanged. *)
Lemma py_round_exact (z : Z) (n : nat) :
  py_round (inject_Z z / pow10 n) n == inject_Z z / pow10 n.
Proof.
  unfold py_round.
  pose proof (pow10_pos n) as Hp.
  rewrite (round_half_even_comp (inject_Z z / pow10 n * pow10 n) (inject_Z z)).
  - now rewrite round_half_even_Z.
  - field. lra.
Qed.

Lemma py_round_0 (n : nat) : py_round 0 n == 0.
Proof.
  rewrite (py_round_comp 0 (inject_Z 0 / pow10 n)).
  - rewrite py_round_exact. reflexivity.
  - reflexivity.
Qed.

(** Rounding to [n] decimals moves a value by at most [1 / (2 * 10^n)]. *)
Lemma py_round_near (x : Q) (n : nat) :
  x - (1 # 2) / pow10 n <= py_round x n <= x + (1 # 2) / pow10 n.
Proof.
  unfold py_round.
  pose proof (pow10_pos n) as Hp.
  pose proof (round_half_even_near (x * pow10 n)) as [Hlo Hhi].
  split.
  - apply Qle_shift_div_l; [exact Hp |].
    setoid_replace ((x - (1 # 2) / pow10 n) * pow10 n)
      with (x * pow10 n - (1 # 2)) by (field; lra).
    exact Hlo.
  - apply Qle_shift_div_r; [exact Hp |].
    setoid_replace ((x + (1 # 2) / pow10 n) * pow10 n)
      with (x * pow10 n + (1 # 2)) by (field; lra).
    exact Hhi.
Qed.

End NumFacts.

(* ================================================================= *)
(** ** Facts about the sub-scores *)

(** Case analysis on every string test of the goal. *)
Ltac scases :=
  repeat match goal with
    | |- context [String.eqb ?a ?b] =>
        destruct (String.eqb_spec a b); try subst; try discriminate
    | |- context [contains ?a ?b] => destruct (contains a b)
    end.

Section SubScores.

Variables (det : Detection) (context : Context).

Lemma area_factor_cases (a : Q) :
  _area_factor a = 0.6 \/ _area_factor a = 1.0 \/ _area_factor a = 1.3.
Proof. unfold _area_factor. qcases; auto. Qed.

Lemma physical_score_range : 0 <= _physical_score det context <= 100.
Proof. apply clamp_bounds. Qed.

Lemma electrical_score_range : 0 <= _electrical_score det context <= 100.
Proof. apply clamp_bounds. Qed.

Lemma human_safety_score_range :
  0 <= _human_safety_score det context <= 100.
Proof. apply clamp_bounds. Qed.

Lemma business_score_range : 0 <= _business_score det context <= 100.
Proof. apply clamp_bounds. Qed.

Lemma model_confidence_score_range :
  0 <= _model_confidence_score det <= 100.
Proof. apply clamp_bounds. Qed.

(** The physical sub-score is never below 20 x 0.6 x 0.8. *)
Lemma physical_score_floor : 9.6 <= _physical_score det context.
Proof.
  unfold _physical_score.
  generalize (lower (str_or (substance_pred det) "unknown")).
  generalize (lower (opt_str_or (floor_type context) "")).
  generalize (opt_float_or_zero (area_ratio det)).
  intros a fl su. cbv zeta.
  destruct (area_factor_cases a) as [E | [E | E]]; rewrite E; clear E;
    destruct (contains "absorbent" fl);
    destruct (su =? "water")%string;
    destruct (su =? "oil")%string;
    destruct (su =? "chemical")%string;
    unfold py_min; qcases; unfold py_max; qcases; lra.
Qed.

End SubScores.

(* ================================================================= *)
(** ** The fields of the result on the normal path *)

Section NormalPath.

Variables (img : string) (det : Detection) (rest : list Detection)
  (context : Context).

Let r := build_risk_result img (det :: rest) context.
Let p := _physical_score det context.
Let e := _electrical_score det context.
Let h := _human_safety_score det context.
Let b := _business_score det context.
Let m := _model_confidence_score det.

(** Read a field of the result off the body of [build_risk_result]. *)
Ltac field_of_result :=
  subst r p e h b m; unfold build_risk_result, build_risk_result_with;
  cbv beta iota zeta delta
    [factors global_severity_score global_severity_level estimated_cost
     mitigated_severity_score mitigated_severity_level mitigated_cost
     risk_reduction_pct recommendations];
  unfold mitigated_cost_at, estimated_cost_at, mitigated_score_at,
    global_score_of;
  reflexivity.

Lemma factors_eq : factors r = build_factors p e h b m.
Proof. field_of_result. Qed.

Lemma global_severity_score_eq :
  global_severity_score r = py_round (global_score_of det context) 2.
Proof. field_of_result. Qed.

Lemma global_severity_level_eq :
  global_severity_level r = _severity_level (global_score_of det context).
Proof. field_of_result. Qed.

Lemma estimated_cost_eq :
  estimated_cost r = py_round (estimated_cost_at det context) 2.
Proof. field_of_result. Qed.

Lemma mitigated_severity_score_eq :
  mitigated_severity_score r
  = Some (py_round (mitigated_score_at det context) 2).
Proof. field_of_result. Qed.

Lemma mitigated_severity_level_eq :
  mitigated_severity_level r
  = Some (_severity_level (mitigated_score_at det context)).
Proof. field_of_result. Qed.

Lemma mitigated_cost_eq :
  mitigated_cost r = Some (py_round (mitigated_cost_at det context) 2).
Proof. field_of_result. Qed.

Lemma risk_reduction_pct_eq :
  risk_reduction_pct r
  = Some (py_round (risk_reduction_pct_of (global_score_of det context)
                      (mitigated_score_at det context)) 1).
Proof. field_of_result. Qed.

Lemma recommendations_eq :
  recommendations r
  = _build_recommendations (_severity_level (global_score_of det context))
      det context.
Proof. field_of_result. Qed.

(** The global score is the sum of the five rounded contributions. *)
Lemma global_score_of_eq :
  global_score_of det context
  == py_round (p * w_physical) 3 + py_round (e * w_electrical) 3
     + py_round (h * w_human) 3 + py_round (b * w_business) 3
     + py_round (m * w_model_conf) 3.
Proof.
  unfold global_score_of, build_factors, py_sum.
  cbv [map fold_left contribution]. fold p e h b m. ring.
Qed.

(** The mitigated score is the weighted sum of the reduced sub-scores. *)
Lemma mitigated_score_at_eq :
  mitigated_score_at det context
  == p * 0.5 * w_physical + e * 0.5 * w_electrical + h * 0.6 * w_human
     + b * 0.7 * w_business + m * w_model_conf.
Proof.
  unfold mitigated_score_at, mitigated_score_of, _apply_mitigation, py_sum.
  cbv [fold_left]. subst p e h b m.
  unfold w_physical, w_electrical, w_human, w_business, w_model_conf. lra.
Qed.

(** Each contribution lies between 0 and 100 times its weight. *)
Lemma contribution_range (v w c : Q) :
  0 <= v <= 100 -> 0 <= w -> py_round (100 * w) 3 == c ->
  0 <= py_round (v * w) 3 <= c.
Proof.
  intros [Hv0 Hv1] Hw Hc. split.
  - rewrite <- (py_round_0 3). apply py_round_mono.
    apply Qmult_le_0_compat; assumption.
  - rewrite <- Hc. apply py_round_mono.
    apply Qmult_le_compat_r; assumption.
Qed.

Lemma global_score_of_range : 0 <= global_score_of det context <= 100.
Proof.
  rewrite global_score_of_eq.
  assert (Hp : 0 <= py_round (p * w_physical) 3 <= 35).
  { apply contribution_range;
      [apply physical_score_range | discriminate | reflexivity]. }
  assert (He : 0 <= py_round (e * w_electrical) 3 <= 20).
  { apply contribution_range;
      [apply electrical_score_range | discriminate | reflexivity]. }
  assert (Hh : 0 <= py_round (h * w_human) 3 <= 20).
  { apply contribution_range;
      [apply human_safety_score_range | discriminate | reflexivity]. }
  assert (Hb : 0 <= py_round (b * w_business) 3 <= 15).
  { apply contribution_range;
      [apply business_score_range | discriminate | reflexivity]. }
  assert (Hm : 0 <= py_round (m * w_model_conf) 3 <= 10).
  { apply contribution_range;
      [apply model_confidence_score_range | discriminate | reflexivity]. }
  lra.
Qed.

End NormalPath.

(* ================================================================= *)
(** ** Mitigation lowers the score *)

Section Mitigation.

Variables (det : Detection) (context : Context).

Lemma py_round_near3 (x : Q) :
  x - 0.0005 <= py_round x 3 <= x + 0.0005.
Proof.
  pose proof (py_round_near x 3) as H.
  change (pow10 3) with (inject_Z 1000) in H.
  setoid_replace ((1 # 2) / inject_Z 1000) with 0.0005 in H by reflexivity.
  exact H.
Qed.

(** The mitigated score stays more than 1.6 points below the global score:
    the physical sub-score is at least 9.6 and loses half of its weight,
    while the five roundings move the global score by 0.0025 at most. *)
Lemma mitigated_score_below_global :
  mitigated_score_at det context + 1.6 <= global_score_of det context.
Proof.
  rewrite global_score_of_eq, mitigated_score_at_eq.
  pose proof (physical_score_floor det context) as Hp.
  pose proof (electrical_score_range det context) as [He _].
  pose proof (human_safety_score_range det context) as [Hh _].
  pose proof (business_score_range det context) as [Hb _].
  pose proof (py_round_near3 (_physical_score det context * w_physical))
    as [Cp _].
  pose proof (py_round_near3 (_electrical_score det context * w_electrical))
    as [Ce _].
  pose proof (py_round_near3 (_human_safety_score det context * w_human))
    as [Ch _].
  pose proof (py_round_near3 (_business_score det context * w_business))
    as [Cb _].
  pose proof (py_round_near3 (_model_confidence_score det * w_model_conf))
    as [Cm _].
  unfold w_physical, w_electrical, w_human, w_business, w_model_conf in *.
  lra.
Qed.

Lemma mitigated_score_nonneg : 0 <= mitigated_score_at det context.
Proof.
  rewrite mitigated_score_at_eq.
  pose proof (physical_score_range det context) as [Hp _].
  pose proof (electrical_score_range det context) as [He _].
  pose proof (human_safety_score_range det context) as [Hh _].
  pose proof (business_score_range det context) as [Hb _].
  pose proof (model_confidence_score_range det) as [Hm _].
  unfold w_physical, w_electrical, w_human, w_business, w_model_conf.
  lra.
Qed.

Lemma global_score_pos : 1.6 <= global_score_of det context.
Proof.
  pose proof mitigated_score_below_global.
  pose proof mitigated_score_nonneg. lra.
Qed.

Lemma estimate_cost_nonneg (g : Q) : 0 <= _estimate_cost g det context.
Proof.
  unfold _estimate_cost. cbv zeta. unfold py_max at 1. qcases; lra.
Qed.

Lemma mitigated_cost_at_eq :
  mitigated_cost_at det context
  == estimated_cost_at det context
     * (mitigated_score_at det context / global_score_of det context).
Proof.
  unfold mitigated_cost_at, mitigated_cost_of.
  pose proof global_score_pos.
  destruct (Qlt_bool_spec 0 (global_score_of det context)); [reflexivity | lra].
Qed.

Lemma mitigation_ratio_range :
  0 <= mitigated_score_at det context / global_score_of det context <= 1.
Proof.
  pose proof global_score_pos.
  pose proof mitigated_score_nonneg.
  pose proof mitigated_score_below_global.
  split.
  - apply Qle_shift_div_l; lra.
  - apply Qle_shift_div_r; lra.
Qed.

Lemma mitigated_cost_le_estimated :
  mitigated_cost_at det context <= estimated_cost_at det context.
Proof.
  rewrite mitigated_cost_at_eq.
  pose proof (estimate_cost_nonneg (global_score_of det context)) as Hc.
  fold (estimated_cost_at det context) in Hc.
  pose proof mitigation_ratio_range as [_ Hr].
  rewrite <- (Qmult_1_r (estimated_cost_at det context)) at 2.
  rewrite !(Qmult_comm (estimated_cost_at det context)).
  apply Qmult_le_compat_r; assumption.
Qed.

Lemma risk_reduction_nonneg :
  0 <= risk_reduction_pct_of (global_score_of det context)
         (mitigated_score_at det context).
Proof.
  unfold risk_reduction_pct_of.
  pose proof global_score_pos.
  pose proof mitigated_score_below_global.
  destruct (Qlt_bool_spec 0 (global_score_of det context)); [| lra].
  apply Qmult_le_0_compat; [| lra].
  apply Qle_shift_div_l; lra.
Qed.

End Mitigation.

(* ================================================================= *)
(** ** Properties of the engine *)

Lemma py_round_range (x lo hi : Q) (n : nat) :
  lo <= x <= hi -> py_round lo n <= py_round x n <= py_round hi n.
Proof. intros [H0 H1]. split; now apply py_round_mono. Qed.

Lemma reported_value_range (v : Q) :
  0 <= v <= 100 -> 0 <= py_round v 2 <= 100.
Proof.
  intro H. apply (py_round_range v 0 100 2) in H.
  rewrite py_round_0 in H.
  setoid_replace (py_round 100 2) with 100 in H by reflexivity.
  exact H.
Qed.

(** C1, as stated, fails: with confidence 0.9312 the contributions are
    15.4, 8, 8, 2.4 and 9.312, their sum is 43.112, and the reported
    global score is 43.11. *)
Lemma global_score_not_sum_of_contributions :
  let r := concrete_floor_result 0.9312 8000 in
  Forall2 Qeq (map contribution (factors r)) [15.4; 8; 8; 2.4; 9.312]
  /\ py_sum (map contribution (factors r)) == 43.112
  /\ global_severity_score r == 43.11
  /\ ~ global_severity_score r == py_sum (map contribution (factors r)).
Proof.
  repeat split.
  - repeat constructor; vm_compute; reflexivity.
  - vm_compute. intro H. discriminate H.
Qed.

(** C1, amended: for a non-empty detections list the reported
    [global_severity_score] is the sum of the five reported contributions
    rounded to two decimals: a multiple of 0.01 within 0.005 of that sum
    (the contributions carry three decimals). *)
Theorem global_score_is_rounded_sum_of_contributions
    (img : string) (det : Detection) (rest : list Detection)
    (context : Context) :
  let r := build_risk_result img (det :: rest) context in
  length (factors r) = 5%nat
  /\ (exists k : Z, global_severity_score r == inject_Z k / 100)
  /\ Qabs (global_severity_score r - py_sum (map contribution (factors r)))
     <= 0.005.
Proof.
  intro r. subst r.
  rewrite global_severity_score_eq, factors_eq.
  change (py_sum (map contribution
            (build_factors (_physical_score det context)
               (_electrical_score det context)
               (_human_safety_score det context)
               (_business_score det context)
               (_model_confidence_score det))))
    with (global_score_of det context).
  split; [reflexivity | split].
  - exists (round_half_even (global_score_of det context * pow10 2)).
    reflexivity.
  - pose proof (py_round_near (global_score_of det context) 2) as H.
    change (pow10 2) with (inject_Z 100) in H.
    setoid_replace ((1 # 2) / inject_Z 100) with 0.005 in H by reflexivity.
    apply Qabs_Qle_condition. lra.
Qed.

(** C2, as stated, fails: in the oil scenario on a concrete floor the
    reported costs are 5698.5 and 8937.6, the reported scores 27.48 and
    43.1, and 5698.5 / 8937.6 differs from 27.48 / 43.1. *)
Lemma reported_cost_ratio_differs :
  let r := concrete_floor_result 0.93 8000 in
  exists mc ms,
    mitigated_cost r = Some mc /\ mitigated_severity_score r = Some ms
    /\ mc == 5698.5 /\ estimated_cost r == 8937.6
    /\ ms == 27.48 /\ global_severity_score r == 43.1
    /\ 0 < global_severity_score r
    /\ ~ mc / estimated_cost r == ms / global_severity_score r.
Proof.
  eexists. eexists.
  split; [reflexivity |]. split; [reflexivity |].
  repeat split; try (vm_compute; reflexivity).
  vm_compute. intro H. discriminate H.
Qed.

Lemma py_round_error2 (x : Q) : Qabs (py_round x 2 - x) <= 0.005.
Proof.
  pose proof (py_round_near x 2) as H2.
  change (pow10 2) with (inject_Z 100) in H2.
  setoid_replace ((1 # 2) / inject_Z 100) with 0.005 in H2 by reflexivity.
  apply Qabs_Qle_condition; lra.
Qed.

Lemma py_round_error3 (x : Q) : Qabs (py_round x 3 - x) <= 0.0005.
Proof.
  pose proof (py_round_near x 3) as H3.
  change (pow10 3) with (inject_Z 1000) in H3.
  setoid_replace ((1 # 2) / inject_Z 1000) with 0.0005 in H3 by reflexivity.
  apply Qabs_Qle_condition; lra.
Qed.

Lemma py_round_nonneg (x : Q) (n : nat) : 0 <= x -> 0 <= py_round x n.
Proof. intro H. rewrite <- (py_round_0 n). now apply py_round_mono. Qed.

(** Four values in proportion, each then moved by 0.005 at most. *)
Lemma proportion_up_to_rounding (M E m g mc ec ms gs : Q) :
  M * g == E * m -> 0 <= M <= E -> 0 <= m <= g -> g <= 100 ->
  0 <= gs -> 0 <= ms ->
  Qabs (mc - M) <= 0.005 -> Qabs (ec - E) <= 0.005 ->
  Qabs (ms - m) <= 0.005 -> Qabs (gs - g) <= 0.005 ->
  Qabs (mc * gs - ec * ms) <= 0.011 * ec + 1.01.
Proof.
  intros Hprop [HM0 HME] [Hm0 Hmg] Hg Hgs Hms Ha Hb Hc Hd.
  apply Qabs_Qle_condition in Ha, Hb, Hc, Hd.
  assert (T1 : - (0.005 * gs) <= (mc - M) * gs <= 0.005 * gs) by nra.
  assert (T2 : - (0.005 * M) <= M * (gs - g) <= 0.005 * M) by nra.
  assert (T4 : - (0.005 * E) <= E * (m - ms) <= 0.005 * E) by nra.
  assert (T5 : - (0.005 * ms) <= (E - ec) * ms <= 0.005 * ms) by nra.
  assert (Esum : mc * gs - ec * ms
                 == (mc - M) * gs + M * (gs - g) + (M * g - E * m)
                    + E * (m - ms) + (E - ec) * ms) by ring.
  rewrite Hprop in Esum.
  revert T1 T2 T4 T5 Esum.
  generalize ((mc - M) * gs) (M * (gs - g)) (E * (m - ms)) ((E - ec) * ms)
    (mc * gs - ec * ms) (E * m).
  intros t1 t2 t4 t5 D Em T1 T2 T4 T5 Esum.
  apply Qabs_Qle_condition. lra.
Qed.

(** C2, amended: for a non-empty detections list the reported global score
    is positive and the proportion holds between the four reported fields
    up to their rounding to two decimals: mitigated cost x global score
    and estimated cost x mitigated score differ by at most 0.011 x estimated
    cost + 1.01, as long as the estimated cost stays below 1e300 and the
    area ratio above -1e300 (beyond, the double products overflow).  For
    every detections list, a reported global score of 0 comes with a
    reported mitigated cost of 0. *)
Theorem mitigated_cost_proportional_up_to_rounding
    (img : string) (detections : list Detection) (context : Context) :
  let r := build_risk_result img detections context in
  (global_severity_score r == 0 ->
   exists mc, mitigated_cost r = Some mc /\ mc == 0)
  /\ (forall det rest, detections = det :: rest ->
      estimated_cost_at det context <= 1e300 ->
      - (1e300) <= opt_float_or_zero (area_ratio det) ->
      0 < global_severity_score r
      /\ exists mc ms,
           mitigated_cost r = Some mc
           /\ mitigated_severity_score r = Some ms
           /\ Qabs (mc * global_severity_score r - estimated_cost r * ms)
              <= 0.011 * estimated_cost r + 1.01).
Proof.
  intro r. subst r.
  assert (Hpos : forall det rest,
             0 < global_severity_score
                   (build_risk_result img (det :: rest) context)).
  { intros det rest. rewrite global_severity_score_eq.
    pose proof (global_score_pos det context) as Hg.
    apply (py_round_mono _ _ 2) in Hg.
    setoid_replace (py_round 1.6 2) with 1.6 in Hg by reflexivity.
    lra. }
  split.
  - destruct detections as [| det rest].
    + intros _. exists 0.0. split; reflexivity.
    + intro H0. specialize (Hpos det rest). lra.
  - intros det rest -> _ _.
    split; [apply Hpos |].
    rewrite global_severity_score_eq, estimated_cost_eq,
      mitigated_severity_score_eq, mitigated_cost_eq.
    do 2 eexists. do 2 (split; [reflexivity |]).
    pose proof (global_score_pos det context) as Hg.
    pose proof (global_score_of_range det context) as [_ Hg100].
    pose proof (mitigated_score_nonneg det context) as Hm0.
    pose proof (mitigated_score_below_global det context) as Hmg.
    pose proof (mitigation_ratio_range det context) as [Hr0 Hr1].
    pose proof (estimate_cost_nonneg det context (global_score_of det context))
      as HE.
    fold (estimated_cost_at det context) in HE.
    pose proof (mitigated_cost_at_eq det context) as HM.
    apply (proportion_up_to_rounding (mitigated_cost_at det context)
             (estimated_cost_at det context) (mitigated_score_at det context)
             (global_score_of det context)).
    + rewrite HM. field. lra.
    + rewrite HM. split.
      * apply Qmult_le_0_compat; assumption.
      * rewrite <- (Qmult_1_r (estimated_cost_at det context)) at 2.
        rewrite !(Qmult_comm (estimated_cost_at det context)).
        apply Qmult_le_compat_r; assumption.
    + lra.
    + exact Hg100.
    + apply py_round_nonneg. lra.
    + apply py_round_nonneg. exact Hm0.
    + apply py_round_error2.
    + apply py_round_error2.
    + apply py_round_error2.
    + apply py_round_error2.
Qed.

(** The amended C2 at work: the empty list, and the oil scenario. *)
Lemma mitigated_cost_proportional_witness :
  (exists mc,
     mitigated_cost
       (build_risk_result "img_001" [] (production_context "concrete" 8000))
     = Some mc /\ mc == 0)
  /\ exists mc ms,
       mitigated_cost (concrete_floor_result 0.93 8000) = Some mc
       /\ mitigated_severity_score (concrete_floor_result 0.93 8000) = Some ms
       /\ Qabs (mc * global_severity_score (concrete_floor_result 0.93 8000)
                - estimated_cost (concrete_floor_result 0.93 8000) * ms)
          <= 0.011 * estimated_cost (concrete_floor_result 0.93 8000) + 1.01.
Proof.
  split.
  - apply (proj1 (mitigated_cost_proportional_up_to_rounding "img_001" []
                    (production_context "concrete" 8000))).
    reflexivity.
  - apply (proj2 (mitigated_cost_proportional_up_to_rounding "img_001"
                    [oil_detection 0.93] (production_context "concrete" 8000))
             (oil_detection 0.93) [] eq_refl);
      vm_compute; discriminate.
Defined.


(** The level is read off the score before its final rounding: a global
    score of 24.996 is classified LOW and reported as 25.0. *)
Remark level_read_before_rounding :
  let det := {| id := "det_1"; label := "spill"; substance_pred := "oil";
                confidence := 0.3996; area_ratio := Some 0.30 |} in
  let context := {| site_id := "SITE_001"; zone_id := None;
                    zone_type := Some "production";
                    proximity_to_machines := Some "far";
                    floor_type := Some "concrete";
                    production_value_per_hour := None |} in
  let r := build_risk_result "img_003" [det] context in
  global_score_of det context == 24.996
  /\ global_severity_score r == 25
  /\ global_severity_level r = "LOW".
Proof. repeat split. Qed.

(** C4: what the engine computes on the scenario of the specification.
    The floor description "non_absorbent" contains "absorbent", so the
    floor factor is 0.8: the physical sub-score is 32 and the global score
    38.9, where the specification expects 44 and 43.1.  On a floor whose
    description does not contain "absorbent" the expected values come out. *)
Theorem scenario_non_absorbent_floor :
  contains "absorbent" (lower "non_absorbent") = true
  /\ map name (factors scenario_result)
     = ["physical"; "electrical"; "human_safety"; "business";
        "model_confidence"]
  /\ Forall2 Qeq (map value (factors scenario_result)) [32; 40; 40; 16; 93]
  /\ global_severity_score scenario_result == 38.9
  /\ global_severity_level scenario_result = "MEDIUM"
  /\ Forall2 Qeq (map value (factors (concrete_floor_result 0.93 8000)))
       [44; 40; 40; 16; 93]
  /\ global_severity_score (concrete_floor_result 0.93 8000) == 43.1
  /\ global_severity_level (concrete_floor_result 0.93 8000) = "MEDIUM".
Proof.
  repeat split; try (repeat constructor; vm_compute; reflexivity).
Qed.

(** C5: the electrical sub-score is the base of the specification's table
    (read on the lowercased substance, zone type and proximity) times the
    area factor, clamped to [0, 100]. *)
Theorem electrical_score_follows_table (det : Detection) (context : Context) :
  _electrical_score det context == spec_electrical_score det context.
Proof.
  unfold _electrical_score, spec_electrical_score, substance_of, zone_of,
    proximity_of.
  generalize (lower (str_or (substance_pred det) "unknown")).
  generalize (lower (opt_str_or (zone_type context) "")).
  generalize (lower (opt_str_or (proximity_to_machines context) "")).
  generalize (_area_factor (opt_float_or_zero (area_ratio det))).
  intros af px zn su. cbv zeta. rewrite clamp_spec.
  unfold clamp_0_100.
  apply Q.max_compat; [reflexivity |].
  apply Q.min_compat; [| reflexivity].
  apply Qmult_comp; [| reflexivity].
  scases; cbn [orb spec_electrical_base]; reflexivity.
Qed.

(** C6, as stated, fails: with a production value of 2 per hour the
    business sub-score is 0.004; its reported value is 0.0 and its reported
    contribution 0.001, which is not round(0.0 x 0.15, 3). *)
Lemma contribution_not_from_reported_value :
  let r := concrete_floor_result 0.93 2 in
  exists f,
    nth_error (factors r) 3 = Some f
    /\ name f = "business" /\ value f == 0 /\ weight f == 0.15
    /\ contribution f == 0.001
    /\ ~ contribution f == contribution_from_reported f.
Proof.
  eexists. split; [reflexivity |].
  repeat split; try (vm_compute; reflexivity).
  vm_compute. intro H. discriminate H.
Qed.

(** C6, amended: the five factors are reported in the fixed order with the
    fixed weights 0.35, 0.20, 0.20, 0.15, 0.10, which sum to 1; each
    reported value is the sub-score rounded to two decimals (a multiple of
    0.01 within 0.005 of the sub-score) and each reported contribution is
    sub-score x weight rounded to three decimals (a multiple of 0.001
    within 0.0005 of that product), computed from the sub-score before its
    rounding; the bounds hold up to floating-point rounding. *)
Theorem contributions_from_unrounded_subscores
    (img : string) (det : Detection) (rest : list Detection)
    (context : Context) :
  let r := build_risk_result img (det :: rest) context in
  map name (factors r)
  = ["physical"; "electrical"; "human_safety"; "business"; "model_confidence"]
  /\ map weight (factors r) = [0.35; 0.20; 0.20; 0.15; 0.10]
  /\ py_sum (map weight (factors r)) == 1
  /\ Forall2
       (fun f s =>
          (exists k : Z, value f == inject_Z k / 100)
          /\ Qabs (value f - s) <= 0.005 + float_slack
          /\ (exists k : Z, contribution f == inject_Z k / 1000)
          /\ Qabs (contribution f - s * weight f) <= 0.0005 + float_slack)
       (factors r)
       [_physical_score det context; _electrical_score det context;
        _human_safety_score det context; _business_score det context;
        _model_confidence_score det].
Proof.
  intro r. subst r. rewrite factors_eq.
  do 3 (split; [reflexivity |]).
  unfold build_factors.
  repeat apply Forall2_cons; try apply Forall2_nil;
    cbn [value weight contribution];
    (split; [eexists; reflexivity |]);
    (split; [match goal with
             | |- Qabs (py_round ?x 2 - _) <= _ =>
                 pose proof (py_round_error2 x) as H
             end;
             apply Qabs_Qle_condition in H; apply Qabs_Qle_condition;
             unfold float_slack; lra |]);
    (split; [eexists; reflexivity |]);
    match goal with
    | |- Qabs (py_round ?x 3 - _) <= _ => pose proof (py_round_error3 x) as H
    end;
    apply Qabs_Qle_condition in H; apply Qabs_Qle_condition;
    unfold float_slack; lra.
Qed.

(** C7: whatever the detection and the context (no assumption on the
    confidence, the area ratio or the production value), the five
    sub-scores, their reported values and the reported global severity
    score lie in [0, 100]. *)
Theorem scores_within_0_100
    (img : string) (detections : list Detection) (context : Context)
    (det : Detection) :
  let r := build_risk_result img detections context in
  0 <= _physical_score det context <= 100
  /\ 0 <= _electrical_score det context <= 100
  /\ 0 <= _human_safety_score det context <= 100
  /\ 0 <= _business_score det context <= 100
  /\ 0 <= _model_confidence_score det <= 100
  /\ Forall (fun f => 0 <= value f <= 100) (factors r)
  /\ 0 <= global_severity_score r <= 100.
Proof.
  intro r. subst r.
  split; [apply physical_score_range |].
  split; [apply electrical_score_range |].
  split; [apply human_safety_score_range |].
  split; [apply business_score_range |].
  split; [apply model_confidence_score_range |].
  destruct detections as [| d rest].
  - split; [constructor | split; discriminate].
  - rewrite factors_eq, global_severity_score_eq. split.
    + unfold build_factors.
      repeat constructor; cbn [value]; apply reported_value_range.
      * apply physical_score_range.
      * apply physical_score_range.
      * apply electrical_score_range.
      * apply electrical_score_range.
      * apply human_safety_score_range.
      * apply human_safety_score_range.
      * apply business_score_range.
      * apply business_score_range.
      * apply model_confidence_score_range.
      * apply model_confidence_score_range.
    + apply reported_value_range, global_score_of_range.
Qed.

(** C8: on an empty detections list the result is the fixed record below,
    whatever the context, and whatever the five sub-score functions are:
    the result does not depend on them. *)
Theorem no_detection_result
    (img : string) (context : Context)
    (physical_score electrical_score human_safety_score business_score
       : Detection -> Context -> Q)
    (model_confidence_score : Detection -> Q) :
  let fixed :=
    {| image_id := img;
       global_severity_score := 0.0;
       global_severity_level := "LOW";
       estimated_cost := 0.0;
       currency := "EUR";
       factors := [];
       explanation := "Aucune détection fournie. Score de risque nul.";
       recommendations := [];
       mitigated_severity_score := Some 0.0;
       mitigated_severity_level := Some "LOW";
       mitigated_cost := Some 0.0;
       risk_reduction_pct := Some 0.0 |} in
  build_risk_result img [] context = fixed
  /\ build_risk_result_with physical_score electrical_score human_safety_score
       business_score model_confidence_score img [] context = fixed
  /\ global_severity_score (build_risk_result img [] context) == 0
  /\ estimated_cost (build_risk_result img [] context) == 0.
Proof. repeat split. Qed.

(** C9, as stated, fails: for a chemical spill in an electrical room the
    level is CRITICAL and the list has five entries; after the escalation
    instruction comes a documentation and root-cause instruction, which
    the list of the specification does not have. *)
Lemma recommendations_have_extra_closing_entry :
  let r := electrical_room_result in
  global_severity_level r = "CRITICAL"
  /\ recommendations r
     = [rec_isolate; rec_chemical; rec_power_cutoff; rec_inform_hse;
        rec_document_root_causes]
  /\ spec_recommendations (global_severity_level r)
       (substance_of chemical_detection) (zone_of electrical_room_context)
     = [rec_isolate; rec_chemical; rec_power_cutoff; rec_inform_hse]
  /\ recommendations r
     <> spec_recommendations (global_severity_level r)
          (substance_of chemical_detection) (zone_of electrical_room_context).
Proof.
  repeat split; try (vm_compute; reflexivity).
  vm_compute. intro H. discriminate H.
Qed.

(** C9, amended: for a non-empty detections list the recommendations are,
    in this order, the isolation instruction; the handling instruction of
    the substance (oil, water or chemical, none otherwise); the power
    cut-off instruction exactly in an electrical room; and then, when the
    level is HIGH or CRITICAL, the escalation instruction followed by the
    documentation and root-cause instruction, otherwise the plain
    documentation instruction alone. *)
Theorem recommendations_in_fixed_order
    (img : string) (det : Detection) (rest : list Detection)
    (context : Context) :
  let r := build_risk_result img (det :: rest) context in
  recommendations r
  = ([rec_isolate] ++ substance_recs (substance_of det)
       ++ zone_recs (zone_of context)
       ++ (if high_or_critical (global_severity_level r)
           then [rec_inform_hse; rec_document_root_causes]
           else [rec_document]))%list.
Proof.
  intro r. subst r.
  rewrite recommendations_eq, global_severity_level_eq.
  unfold _build_recommendations, substance_of, zone_of, high_or_critical.
  generalize (_severity_level (global_score_of det context)).
  generalize (lower (str_or (substance_pred det) "unknown")).
  generalize (lower (opt_str_or (zone_type context) "")).
  intros zn su lv. cbv zeta.
  destruct ((lv =? "HIGH") || (lv =? "CRITICAL"))%string;
    scases; reflexivity.
Qed.

(** C10: for a non-empty detections list the reported mitigated score does
    not exceed the reported global score, the reported risk reduction is
    not negative and the reported mitigated cost does not exceed the
    reported estimated cost; before rounding the mitigated score is even
    strictly below the global score. *)
Theorem mitigation_never_raises_risk
    (img : string) (det : Detection) (rest : list Detection)
    (context : Context) :
  let r := build_risk_result img (det :: rest) context in
  exists ms mc pct,
    mitigated_severity_score r = Some ms
    /\ mitigated_cost r = Some mc
    /\ risk_reduction_pct r = Some pct
    /\ ms <= global_severity_score r
    /\ 0 <= pct
    /\ mc <= estimated_cost r
    /\ mitigated_score_at det context < global_score_of det context
    /\ (forall p e h b m,
          _apply_mitigation p e h b m = (p * 0.5, e * 0.5, h * 0.6, b * 0.7, m)).
Proof.
  intro r. subst r.
  rewrite mitigated_severity_score_eq, mitigated_cost_eq,
    risk_reduction_pct_eq, global_severity_score_eq, estimated_cost_eq.
  do 3 eexists. do 3 (split; [reflexivity |]).
  pose proof (mitigated_score_below_global det context) as Hlt.
  repeat split.
  - apply py_round_mono. lra.
  - rewrite <- (py_round_0 1). apply py_round_mono, risk_reduction_nonneg.
  - apply py_round_mono, mitigated_cost_le_estimated.
  - lra.
Qed.

(* ================================================================= *)
(** ** Further properties of the scoring helpers *)

Section Classes.

Variables (det : Detection) (context : Context).

(** The string tests of the engine, read through the classes. *)
Lemma substance_tests :
  let su := lower (str_or (substance_pred det) "unknown") in
  match substance_of det with
  | Water => (su =? "water")%string = true
  | Oil => (su =? "water")%string = false /\ (su =? "oil")%string = true
  | Chemical =>
      (su =? "water")%string = false /\ (su =? "oil")%string = false
      /\ (su =? "chemical")%string = true
  | OtherSubstance =>
      (su =? "water")%string = false /\ (su =? "oil")%string = false
      /\ (su =? "chemical")%string = false
  end.
Proof.
  unfold substance_of. cbv zeta.
  destruct (_ =? "water")%string; [reflexivity |].
  destruct (_ =? "oil")%string; [split; reflexivity |].
  destruct (_ =? "chemical")%string; repeat split.
Qed.

Lemma substance_base_range :
  20 <= substance_base (substance_of det) <= 70.
Proof. destruct (substance_of det); cbn; lra. Qed.

Lemma area_factor_range (a : Q) : 0.6 <= _area_factor a <= 1.3.
Proof. destruct (area_factor_cases a) as [E | [E | E]]; rewrite E; lra. Qed.

Lemma area_factor_mono (a1 a2 : Q) :
  a1 <= a2 -> _area_factor a1 <= _area_factor a2.
Proof. intro H. unfold _area_factor. qcases; lra. Qed.

Lemma floor_factor_range : 0.8 <= floor_factor_of context <= 1.1.
Proof. unfold floor_factor_of. destruct (floor_is_absorbent context); lra. Qed.

Lemma proximity_factor_range :
  0.7 <= proximity_factor (proximity_of context) <= 1.2.
Proof. destruct (proximity_of context); cbn; lra. Qed.

Lemma zone_multiplier_range :
  0.5 <= zone_multiplier (zone_of context) <= 1.
Proof. destruct (zone_of context); cbn; lra. Qed.

End Classes.

Section Tables.

Variables (det : Detection) (context : Context).

Lemma clamp_nonneg (x y : Q) :
  x == y -> 0 <= x -> py_max 0.0 (py_min x 100.0) == Qmin y 100.
Proof.
  intros E H. rewrite clamp_spec. unfold clamp_0_100.
  rewrite Q.max_r by (apply Q.min_glb; [exact H | discriminate]).
  apply Q.min_compat; [exact E | reflexivity].
Qed.

(** X1: the physical sub-score is the base of the substance (water 20, oil
    40, chemical 70, anything else 30) times the area factor times the
    floor factor (0.8 when the lowercased floor description contains
    "absorbent", else 1.1), capped at 100; the lower clamp never acts. *)
Theorem physical_score_follows_table :
  _physical_score det context
  == Qmin (substance_base (substance_of det) * _area_factor (area_of det)
           * floor_factor_of context) 100.
Proof.
  unfold _physical_score, substance_of, floor_factor_of, floor_is_absorbent,
    area_of.
  generalize (lower (str_or (substance_pred det) "unknown")).
  generalize (lower (opt_str_or (floor_type context) "")).
  pose proof (area_factor_range (opt_float_or_zero (area_ratio det))) as Ha.
  revert Ha.
  generalize (_area_factor (opt_float_or_zero (area_ratio det))).
  intros af Ha fl su. cbv zeta.
  scases; cbn [substance_base]; apply clamp_nonneg; lra.
Qed.

(** X2: the human-safety sub-score is the base of the substance times the
    area factor times the proximity factor (far 0.7, near_machine 1.0,
    critical_machine 1.2, anything else 1.0), capped at 100. *)
Theorem human_safety_score_follows_table :
  _human_safety_score det context
  == Qmin (substance_base (substance_of det) * _area_factor (area_of det)
           * proximity_factor (proximity_of context)) 100.
Proof.
  unfold _human_safety_score, substance_of, proximity_of, area_of.
  generalize (lower (str_or (substance_pred det) "unknown")).
  generalize (lower (opt_str_or (proximity_to_machines context) "")).
  pose proof (area_factor_range (opt_float_or_zero (area_ratio det))) as Ha.
  revert Ha.
  generalize (_area_factor (opt_float_or_zero (area_ratio det))).
  intros af Ha px su. cbv zeta.
  scases; cbn [substance_base proximity_factor]; apply clamp_nonneg; lra.
Qed.

(** X3: the business sub-score is the production value per hour divided by
    500 and clamped to [0, 100] (a missing or negative value counts as 0),
    times the area factor and the zone multiplier (production 1.0,
    electrical_room 0.8, storage 0.7, anything else 0.5), capped at 100. *)
Theorem business_score_follows_formula :
  _business_score det context
  == Qmin (clamp_0_100 (production_value_of context / 500)
           * _area_factor (area_of det) * zone_multiplier (zone_of context))
       100.
Proof.
  unfold _business_score, zone_of, area_of, production_value_of.
  generalize (lower (opt_str_or (zone_type context) "")).
  generalize (opt_float_or_zero (production_value_per_hour context)).
  pose proof (area_factor_range (opt_float_or_zero (area_ratio det))) as Ha.
  revert Ha.
  generalize (_area_factor (opt_float_or_zero (area_ratio det))).
  intros af Ha v zn. cbv zeta.
  unfold clamp_0_100.
  assert (Ev : v / 500.0 == v / 500) by (field; discriminate).
  revert Ev. generalize (v / 500.0) (v / 500). intros b0 b Ev.
  unfold py_min at 2. qcases.
  - (* the production base is capped at 100 *)
    rewrite (Q.min_r b 100) by lra. rewrite (Q.max_r 0 100) by lra.
    scases; cbn [zone_multiplier]; apply clamp_nonneg; lra.
  - rewrite (Q.min_l b 100) by lra.
    destruct (Qlt_le_dec b 0) as [Hn | Hp].
    + (* a negative production value scores 0 *)
      rewrite (Q.max_l 0 b) by lra.
      assert (Hz : forall c, 0 < c ->
                py_max 0.0 (py_min (b0 * af * c) 100.0)
                == Qmin (0 * af * c) 100).
      { intros c Hc. assert (H1 : b0 * af <= 0) by nra.
        assert (b0 * af * c <= 0) by nra.
        unfold py_min. qcases; unfold py_max; qcases; try lra.
        all: rewrite Q.min_l by lra; lra. }
      scases; cbn [zone_multiplier]; apply Hz; lra.
    + rewrite (Q.max_r 0 b) by lra.
      assert (Hz : forall c, 0 < c ->
                py_max 0.0 (py_min (b0 * af * c) 100.0)
                == Qmin (b * af * c) 100).
      { intros c Hc. assert (H1 : 0 <= b0 * af) by nra.
        apply clamp_nonneg; [now rewrite Ev | nra]. }
      scases; cbn [zone_multiplier]; apply Hz; lra.
Qed.

(** X4: the model-confidence sub-score is 100 times the confidence clamped
    to [0, 1]. *)
Theorem model_confidence_score_formula :
  _model_confidence_score det == 100 * Qmax 0 (Qmin (confidence det) 1).
Proof.
  unfold _model_confidence_score. cbv zeta.
  pose proof (float_or_zero_eq (confidence det)) as Ec.
  revert Ec. generalize (float_or_zero (confidence det)) (confidence det).
  intros c0 c Ec.
  destruct (Q.min_spec c 1) as [[H1 E1] | [H1 E1]]; rewrite E1;
    destruct (Q.max_spec 0 (if Qlt_le_dec c 1 then c else 1))
      as [[H0 E0] | [H0 E0]];
    destruct (Qlt_le_dec c 1); try lra;
    rewrite E0; unfold py_min; qcases; unfold py_max; qcases; lra.
Qed.

End Tables.

Section Floors.

Variables (det : Detection) (context : Context).

(** The human-safety sub-score is never below 20 x 0.6 x 0.7. *)
Lemma human_safety_score_floor : 8.4 <= _human_safety_score det context.
Proof.
  unfold _human_safety_score.
  generalize (lower (str_or (substance_pred det) "unknown")).
  generalize (lower (opt_str_or (proximity_to_machines context) "")).
  generalize (opt_float_or_zero (area_ratio det)).
  intros a px su. cbv zeta.
  destruct (area_factor_cases a) as [E | [E | E]]; rewrite E; clear E;
    destruct (px =? "far")%string;
    destruct (px =? "near_machine")%string;
    destruct (px =? "critical_machine")%string;
    destruct (su =? "water")%string;
    destruct (su =? "oil")%string;
    destruct (su =? "chemical")%string;
    unfold py_min; qcases; unfold py_max; qcases; lra.
Qed.

Lemma severity_level_spec (score : Q) :
  _severity_level score = level_name (spec_level score).
Proof.
  unfold _severity_level, spec_level.
  destruct (Qlt_le_dec score 25); destruct (Qlt_le_dec score 50);
    destruct (Qlt_le_dec score 75); qcases; try reflexivity; lra.
Qed.

Lemma spec_level_mono (s1 s2 : Q) :
  s1 <= s2 -> (level_rank (spec_level s1) <= level_rank (spec_level s2))%nat.
Proof.
  intro H. unfold spec_level.
  destruct (Qlt_le_dec s1 25); destruct (Qlt_le_dec s1 50);
    destruct (Qlt_le_dec s1 75); destruct (Qlt_le_dec s2 25);
    destruct (Qlt_le_dec s2 50); destruct (Qlt_le_dec s2 75);
    cbn; try lia; lra.
Qed.

(** The weighted sum of the sub-scores, before any rounding. *)
Lemma global_score_near_weighted_sum :
  let S := _physical_score det context * 0.35
           + _electrical_score det context * 0.20
           + _human_safety_score det context * 0.20
           + _business_score det context * 0.15
           + _model_confidence_score det * 0.10 in
  S - 0.0025 <= global_score_of det context <= S + 0.0025.
Proof.
  intro S. subst S. rewrite global_score_of_eq.
  pose proof (py_round_near3 (_physical_score det context * w_physical)).
  pose proof (py_round_near3 (_electrical_score det context * w_electrical)).
  pose proof (py_round_near3 (_human_safety_score det context * w_human)).
  pose proof (py_round_near3 (_business_score det context * w_business)).
  pose proof (py_round_near3 (_model_confidence_score det * w_model_conf)).
  unfold w_physical, w_electrical, w_human, w_business, w_model_conf in *.
  lra.
Qed.

End Floors.

(** X5: the mitigated severity level is never above the global severity
    level (LOW < MEDIUM < HIGH < CRITICAL). *)
Theorem mitigated_level_not_above_global
    (img : string) (det : Detection) (rest : list Detection)
    (context : Context) :
  let r := build_risk_result img (det :: rest) context in
  exists lg lm,
    global_severity_level r = level_name lg
    /\ mitigated_severity_level r = Some (level_name lm)
    /\ (level_rank lm <= level_rank lg)%nat.
Proof.
  intro r. subst r.
  exists (spec_level (global_score_of det context)),
    (spec_level (mitigated_score_at det context)).
  rewrite global_severity_level_eq, mitigated_severity_level_eq,
    !severity_level_spec.
  split; [reflexivity | split; [reflexivity |]].
  apply spec_level_mono.
  pose proof (mitigated_score_below_global det context). lra.
Qed.

(** X6: for a non-empty detections list the reported risk reduction lies
    between 15 and 50 percent, whatever the inputs. *)
Theorem risk_reduction_between_15_and_50
    (img : string) (det : Detection) (rest : list Detection)
    (context : Context) :
  let r := build_risk_result img (det :: rest) context in
  exists pct, risk_reduction_pct r = Some pct /\ 15 <= pct <= 50.
Proof.
  intro r. subst r. rewrite risk_reduction_pct_eq.
  eexists. split; [reflexivity |].
  pose proof (global_score_near_weighted_sum det context) as Hg.
  pose proof (mitigated_score_at_eq det context) as Hm.
  pose proof (physical_score_floor det context) as Hp.
  pose proof (human_safety_score_floor det context) as Hh.
  pose proof (electrical_score_range det context) as [He _].
  pose proof (business_score_range det context) as [Hb _].
  pose proof (model_confidence_score_range det) as [Hc0 Hc1].
  cbv zeta in Hg.
  unfold w_physical, w_electrical, w_human, w_business, w_model_conf in Hm.
  revert Hg Hm.
  generalize (global_score_of det context) (mitigated_score_at det context).
  intros g m Hg Hm.
  assert (Hpos : 0 < g) by lra.
  assert (Hraw : 15 <= risk_reduction_pct_of g m <= 50.04).
  { unfold risk_reduction_pct_of.
    destruct (Qlt_bool_spec 0 g); [| lra].
    assert (Hlo : 0.15 <= (g - m) / g) by (apply Qle_shift_div_l; lra).
    assert (Hhi : (g - m) / g <= 0.5004) by (apply Qle_shift_div_r; lra).
    lra. }
  apply (py_round_range _ _ _ 1) in Hraw.
  setoid_replace (py_round 15 1) with 15 in Hraw by reflexivity.
  setoid_replace (py_round 50.04 1) with 50 in Hraw by reflexivity.
  exact Hraw.
Qed.

(** X7: a detection never scores below 5.04: for a non-empty detections
    list the reported global severity score is at least 5.04 and the
    reported mitigated score at least 2.69; the bound 5.04 is reached (water,
    no area, absorbent floor, far from machines, confidence 0). *)
Theorem global_score_at_least_5_04
    (img : string) (det : Detection) (rest : list Detection)
    (context : Context) :
  let r := build_risk_result img (det :: rest) context in
  5.04 <= global_severity_score r
  /\ (exists ms, mitigated_severity_score r = Some ms /\ 2.69 <= ms)
  /\ global_severity_score
       (build_risk_result img
          [{| id := "d"; label := "spill"; substance_pred := "water";
              confidence := 0; area_ratio := None |}]
          {| site_id := "s"; zone_id := None; zone_type := None;
             proximity_to_machines := Some "far";
             floor_type := Some "absorbent";
             production_value_per_hour := None |})
     == 5.04.
Proof.
  intro r. subst r.
  rewrite global_severity_score_eq, mitigated_severity_score_eq.
  pose proof (global_score_near_weighted_sum det context) as Hg.
  pose proof (global_score_of_eq det context) as Hsum.
  pose proof (mitigated_score_at_eq det context) as Hm.
  pose proof (physical_score_floor det context) as Hp.
  pose proof (human_safety_score_floor det context) as Hh.
  pose proof (electrical_score_range det context) as [He _].
  pose proof (business_score_range det context) as [Hb _].
  pose proof (model_confidence_score_range det) as [Hc0 Hc1].
  unfold w_physical, w_electrical, w_human, w_business, w_model_conf in *.
  split; [| split].
  - setoid_replace 5.04 with (py_round 5.04 2) by reflexivity.
    apply py_round_mono. rewrite Hsum.
    assert (Cp : py_round 3.36 3
                 <= py_round (_physical_score det context * 0.35) 3)
      by (apply py_round_mono; lra).
    assert (Ch : py_round 1.68 3
                 <= py_round (_human_safety_score det context * 0.20) 3)
      by (apply py_round_mono; lra).
    assert (Ce : py_round 0 3
                 <= py_round (_electrical_score det context * 0.20) 3)
      by (apply py_round_mono; lra).
    assert (Cb : py_round 0 3
                 <= py_round (_business_score det context * 0.15) 3)
      by (apply py_round_mono; lra).
    assert (Cm : py_round 0 3
                 <= py_round (_model_confidence_score det * 0.10) 3)
      by (apply py_round_mono; lra).
    setoid_replace (py_round 3.36 3) with 3.36 in Cp by reflexivity.
    setoid_replace (py_round 1.68 3) with 1.68 in Ch by reflexivity.
    rewrite py_round_0 in Ce, Cb, Cm.
    lra.
  - eexists. split; [reflexivity |].
    setoid_replace 2.69 with (py_round 2.688 2) by reflexivity.
    apply py_round_mono. lra.
  - reflexivity.
Qed.

(* ================================================================= *)
(** ** Monotonicity in the area, the confidence and the production value *)

Section Monotone.

Variables (d1 d2 : Detection) (c1 c2 : Context).

Hypothesis same_substance : substance_pred d1 = substance_pred d2.
Hypothesis same_zone : zone_type c1 = zone_type c2.
Hypothesis same_proximity :
  proximity_to_machines c1 = proximity_to_machines c2.
Hypothesis same_floor : floor_type c1 = floor_type c2.
Hypothesis area_le : area_of d1 <= area_of d2.
Hypothesis confidence_le : confidence d1 <= confidence d2.
Hypothesis production_le : production_value_of c1 <= production_value_of c2.

Lemma clamp_mono (x y : Q) :
  x <= 0 \/ x <= y ->
  py_max 0.0 (py_min x 100.0) <= py_max 0.0 (py_min y 100.0).
Proof.
  intro H. unfold py_min. qcases; unfold py_max; qcases; lra.
Qed.

Lemma py_max_0_mono (x y : Q) :
  x <= 0 \/ x <= y -> py_max 0.0 x <= py_max 0.0 y.
Proof. intro H. unfold py_max. qcases; lra. Qed.

Lemma py_min_mono_l (x y k : Q) : x <= y -> py_min x k <= py_min y k.
Proof. intro H. unfold py_min. qcases; lra. Qed.

Lemma physical_score_mono :
  _physical_score d1 c1 <= _physical_score d2 c2.
Proof.
  unfold _physical_score. rewrite same_substance, same_floor.
  generalize (lower (str_or (substance_pred d2) "unknown")).
  generalize (lower (opt_str_or (floor_type c2) "")).
  pose proof (area_factor_mono _ _ area_le) as Ha.
  pose proof (area_factor_range (area_of d1)) as R1.
  unfold area_of in Ha, R1. revert Ha R1.
  generalize (_area_factor (opt_float_or_zero (area_ratio d1))).
  generalize (_area_factor (opt_float_or_zero (area_ratio d2))).
  intros a2 a1 Ha R1 fl su. cbv zeta.
  apply clamp_mono. right.
  destruct (contains "absorbent" fl); scases; lra.
Qed.

Lemma electrical_score_mono :
  _electrical_score d1 c1 <= _electrical_score d2 c2.
Proof.
  unfold _electrical_score.
  rewrite same_substance, same_zone, same_proximity.
  generalize (lower (str_or (substance_pred d2) "unknown")).
  generalize (lower (opt_str_or (zone_type c2) "")).
  generalize (lower (opt_str_or (proximity_to_machines c2) "")).
  pose proof (area_factor_mono _ _ area_le) as Ha.
  unfold area_of in Ha. revert Ha.
  generalize (_area_factor (opt_float_or_zero (area_ratio d1))).
  generalize (_area_factor (opt_float_or_zero (area_ratio d2))).
  intros a2 a1 Ha px zn su. cbv zeta.
  apply clamp_mono. right.
  scases; cbn [orb]; lra.
Qed.

Lemma human_safety_score_mono :
  _human_safety_score d1 c1 <= _human_safety_score d2 c2.
Proof.
  unfold _human_safety_score. rewrite same_substance, same_proximity.
  generalize (lower (str_or (substance_pred d2) "unknown")).
  generalize (lower (opt_str_or (proximity_to_machines c2) "")).
  pose proof (area_factor_mono _ _ area_le) as Ha.
  unfold area_of in Ha. revert Ha.
  generalize (_area_factor (opt_float_or_zero (area_ratio d1))).
  generalize (_area_factor (opt_float_or_zero (area_ratio d2))).
  intros a2 a1 Ha px su. cbv zeta.
  apply clamp_mono. right.
  scases; lra.
Qed.

Lemma business_score_mono :
  _business_score d1 c1 <= _business_score d2 c2.
Proof.
  unfold _business_score. rewrite same_zone.
  generalize (lower (opt_str_or (zone_type c2) "")).
  pose proof (area_factor_mono _ _ area_le) as Ha.
  pose proof (area_factor_range (area_of d1)) as R1.
  unfold area_of in Ha, R1. revert Ha R1.
  generalize (_area_factor (opt_float_or_zero (area_ratio d1))).
  generalize (_area_factor (opt_float_or_zero (area_ratio d2))).
  assert (Hb : py_min (opt_float_or_zero (production_value_per_hour c1) / 500.0)
                 100.0
               <= py_min
                    (opt_float_or_zero (production_value_per_hour c2) / 500.0)
                    100.0).
  { apply py_min_mono_l. unfold production_value_of in production_le.
    apply Qmult_le_compat_r; [exact production_le | discriminate]. }
  revert Hb.
  generalize
    (py_min (opt_float_or_zero (production_value_per_hour c1) / 500.0) 100.0).
  generalize
    (py_min (opt_float_or_zero (production_value_per_hour c2) / 500.0) 100.0).
  intros b2 b1 Hb a2 a1 Ha R1 zn. cbv zeta.
  apply clamp_mono.
  destruct (Qlt_le_dec b1 0) as [Hneg | Hpos].
  - left. assert (b1 * a1 <= 0) by nra. scases; nra.
  - right. assert (b1 * a1 <= b2 * a2) by nra. scases; nra.
Qed.

Lemma model_confidence_score_mono :
  _model_confidence_score d1 <= _model_confidence_score d2.
Proof.
  unfold _model_confidence_score. cbv zeta.
  apply clamp_mono. right.
  rewrite !float_or_zero_eq. lra.
Qed.

Lemma global_score_of_mono :
  global_score_of d1 c1 <= global_score_of d2 c2.
Proof.
  rewrite !global_score_of_eq.
  pose proof physical_score_mono. pose proof electrical_score_mono.
  pose proof human_safety_score_mono. pose proof business_score_mono.
  pose proof model_confidence_score_mono.
  assert (py_round (_physical_score d1 c1 * w_physical) 3
          <= py_round (_physical_score d2 c2 * w_physical) 3)
    by (apply py_round_mono; unfold w_physical; lra).
  assert (py_round (_electrical_score d1 c1 * w_electrical) 3
          <= py_round (_electrical_score d2 c2 * w_electrical) 3)
    by (apply py_round_mono; unfold w_electrical; lra).
  assert (py_round (_human_safety_score d1 c1 * w_human) 3
          <= py_round (_human_safety_score d2 c2 * w_human) 3)
    by (apply py_round_mono; unfold w_human; lra).
  assert (py_round (_business_score d1 c1 * w_business) 3
          <= py_round (_business_score d2 c2 * w_business) 3)
    by (apply py_round_mono; unfold w_business; lra).
  assert (py_round (_model_confidence_score d1 * w_model_conf) 3
          <= py_round (_model_confidence_score d2 * w_model_conf) 3)
    by (apply py_round_mono; unfold w_model_conf; lra).
  lra.
Qed.

Lemma estimated_cost_at_mono :
  0 <= production_value_of c1 ->
  estimated_cost_at d1 c1 <= estimated_cost_at d2 c2.
Proof.
  intro Hv.
  unfold estimated_cost_at, _estimate_cost. rewrite same_substance.
  generalize (lower (str_or (substance_pred d2) "unknown")).
  pose proof global_score_of_mono as Hg.
  pose proof (global_score_pos d1 c1) as Hg1.
  revert Hg Hg1.
  generalize (global_score_of d1 c1) (global_score_of d2 c2).
  assert (Hh : py_min (4.0 * opt_float_or_zero (area_ratio d1)) 4.0
               <= py_min (4.0 * opt_float_or_zero (area_ratio d2)) 4.0).
  { apply py_min_mono_l. unfold area_of in area_le. lra. }
  revert Hh.
  generalize (py_min (4.0 * opt_float_or_zero (area_ratio d1)) 4.0).
  generalize (py_min (4.0 * opt_float_or_zero (area_ratio d2)) 4.0).
  unfold production_value_of in Hv, production_le. revert Hv production_le.
  generalize (opt_float_or_zero (production_value_per_hour c1)).
  generalize (opt_float_or_zero (production_value_per_hour c2)).
  intros v2 v1 Hv Hvle h2 h1 Hh g1 g2 Hg Hg1 su. cbv zeta.
  apply py_max_0_mono.
  assert (E1 : g1 / 100.0 == g1 * 0.01) by (field; discriminate).
  assert (E2 : g2 / 100.0 == g2 * 0.01) by (field; discriminate).
  assert (Hs1 : 0 < 0.5 + g1 / 100.0) by (rewrite E1; lra).
  assert (Hs : 0.5 + g1 / 100.0 <= 0.5 + g2 / 100.0)
    by (rewrite E1, E2; lra).
  clear E1 E2.
  revert Hs1 Hs.
  generalize (0.5 + g1 / 100.0) (0.5 + g2 / 100.0). intros s1 s2 Hs1 Hs.
  destruct (Qlt_le_dec h1 0) as [Hneg | Hpos].
  - left. assert (A : v1 * h1 <= 0) by nra.
    revert A. generalize (v1 * h1). intros A HA.
    scases; nra.
  - right. assert (A : 0 <= v1 * h1 <= v2 * h2) by nra.
    revert A. generalize (v1 * h1) (v2 * h2). intros A1 A2 HA.
    scases; nra.
Qed.

End Monotone.

(** X8: all else equal (same substance, zone type, proximity and floor
    description), a detection with a larger area ratio, a higher confidence
    and a higher production value never gets a lower sub-score, a lower
    contribution or a lower reported global severity score. *)
Theorem larger_inputs_never_score_lower
    (img1 img2 : string) (d1 d2 : Detection) (rest1 rest2 : list Detection)
    (c1 c2 : Context) :
  substance_pred d1 = substance_pred d2 ->
  zone_type c1 = zone_type c2 ->
  proximity_to_machines c1 = proximity_to_machines c2 ->
  floor_type c1 = floor_type c2 ->
  area_of d1 <= area_of d2 ->
  confidence d1 <= confidence d2 ->
  production_value_of c1 <= production_value_of c2 ->
  let r1 := build_risk_result img1 (d1 :: rest1) c1 in
  let r2 := build_risk_result img2 (d2 :: rest2) c2 in
  Forall2 (fun f1 f2 => value f1 <= value f2
                        /\ contribution f1 <= contribution f2)
    (factors r1) (factors r2)
  /\ global_severity_score r1 <= global_severity_score r2.
Proof.
  intros Hs Hz Hp Hf Ha Hc Hv r1 r2. subst r1 r2.
  rewrite !factors_eq, !global_severity_score_eq.
  assert (P := physical_score_mono d1 d2 c1 c2 Hs Hf Ha).
  assert (E := electrical_score_mono d1 d2 c1 c2 Hs Hz Hp Ha).
  assert (H := human_safety_score_mono d1 d2 c1 c2 Hs Hp Ha).
  assert (B := business_score_mono d1 d2 c1 c2 Hz Ha Hv).
  assert (M := model_confidence_score_mono d1 d2 Hc).
  split.
  - unfold build_factors.
    repeat constructor; cbn [value contribution]; apply py_round_mono;
      unfold w_physical, w_electrical, w_human, w_business, w_model_conf;
      lra.
  - apply py_round_mono.
    apply (global_score_of_mono d1 d2 c1 c2); assumption.
Qed.

Lemma larger_inputs_never_score_lower_witness :
  global_severity_score (concrete_floor_result 0.5 1000)
  <= global_severity_score (concrete_floor_result 0.93 8000).
Proof.
  apply (larger_inputs_never_score_lower "img_001" "img_001"
           (oil_detection 0.5) (oil_detection 0.93) [] []
           (production_context "concrete" 1000)
           (production_context "concrete" 8000));
    try reflexivity; discriminate.
Defined.

(** X9: all else equal, with a production value that is not negative, a
    larger area ratio, confidence and production value never lower the
    reported estimated cost. *)
Theorem larger_inputs_never_cost_less
    (img1 img2 : string) (d1 d2 : Detection) (rest1 rest2 : list Detection)
    (c1 c2 : Context) :
  substance_pred d1 = substance_pred d2 ->
  zone_type c1 = zone_type c2 ->
  proximity_to_machines c1 = proximity_to_machines c2 ->
  floor_type c1 = floor_type c2 ->
  area_of d1 <= area_of d2 ->
  confidence d1 <= confidence d2 ->
  production_value_of c1 <= production_value_of c2 ->
  0 <= production_value_of c1 ->
  estimated_cost (build_risk_result img1 (d1 :: rest1) c1)
  <= estimated_cost (build_risk_result img2 (d2 :: rest2) c2).
Proof.
  intros Hs Hz Hp Hf Ha Hc Hv H0.
  rewrite !estimated_cost_eq.
  apply py_round_mono.
  apply (estimated_cost_at_mono d1 d2 c1 c2); assumption.
Qed.

Lemma larger_inputs_never_cost_less_witness :
  estimated_cost (concrete_floor_result 0.5 1000)
  <= estimated_cost (concrete_floor_result 0.93 8000).
Proof.
  apply (larger_inputs_never_cost_less "img_001" "img_001"
           (oil_detection 0.5) (oil_detection 0.93) [] []
           (production_context "concrete" 1000)
           (production_context "concrete" 8000));
    try reflexivity; discriminate.
Defined.

(* ================================================================= *)
(** ** Bounds on the estimated cost *)

Section Cost.

Variables (det : Detection) (context : Context).

Lemma hours_lost_eq (a : Q) : py_min (4.0 * a) 4.0 == 4 * Qmin a 1.
Proof.
  unfold py_min. qcases.
  - rewrite Q.min_r by lra. lra.
  - rewrite Q.min_l by lra. lra.
Qed.

Lemma estimated_cost_at_nonneg : 0 <= estimated_cost_at det context.
Proof. unfold estimated_cost_at. apply estimate_cost_nonneg. Qed.

Lemma mitigated_cost_at_nonneg : 0 <= mitigated_cost_at det context.
Proof.
  rewrite mitigated_cost_at_eq.
  apply Qmult_le_0_compat.
  - apply estimated_cost_at_nonneg.
  - apply mitigation_ratio_range.
Qed.

Lemma estimated_cost_at_upper :
  0 <= production_value_of context -> 0 <= area_of det ->
  estimated_cost_at det context
  <= 12 * production_value_of context * Qmin (area_of det) 1.
Proof.
  intros Hv Ha.
  unfold estimated_cost_at, _estimate_cost.
  pose proof (global_score_of_range det context) as Hg.
  revert Hg. generalize (global_score_of det context).
  generalize (lower (str_or (substance_pred det) "unknown")).
  unfold production_value_of, area_of in *.
  pose proof (hours_lost_eq (opt_float_or_zero (area_ratio det))) as Hh.
  revert Hh Hv Ha.
  generalize (py_min (4.0 * opt_float_or_zero (area_ratio det)) 4.0).
  generalize (opt_float_or_zero (area_ratio det)).
  generalize (opt_float_or_zero (production_value_per_hour context)).
  intros v a h Hh Hv Ha su g Hg. cbv zeta.
  assert (Hm : 0 <= Qmin a 1) by (apply Q.min_glb; [exact Ha | discriminate]).
  assert (Hm1 : Qmin a 1 <= 1) by apply Q.le_min_r.
  revert Hh Hm Hm1. generalize (Qmin a 1). intros k Hh Hk0 Hk1.
  assert (E : g / 100.0 == g * 0.01) by (field; discriminate).
  assert (Hs : 0 < 0.5 + g / 100.0 <= 1.5) by (rewrite E; lra).
  revert Hs. generalize (0.5 + g / 100.0). intros s Hs.
  assert (HA : 0 <= v * h) by nra.
  assert (EA : v * h == 4 * (v * k)) by (rewrite Hh; ring).
  assert (HB : 0 <= v * k) by nra.
  setoid_replace (12 * v * k) with (3 * (v * h)) by (rewrite EA; ring).
  revert HA. generalize (v * h). intros A HA.
  unfold py_max. scases; qcases; nra.
Qed.

Lemma estimated_cost_at_zero :
  production_value_of context == 0 \/ area_of det == 0 ->
  estimated_cost_at det context == 0.
Proof.
  intro H.
  unfold estimated_cost_at, _estimate_cost.
  generalize (global_score_of det context).
  generalize (lower (str_or (substance_pred det) "unknown")).
  unfold production_value_of, area_of in H.
  pose proof (hours_lost_eq (opt_float_or_zero (area_ratio det))) as Hh.
  revert Hh H.
  generalize (py_min (4.0 * opt_float_or_zero (area_ratio det)) 4.0).
  generalize (opt_float_or_zero (area_ratio det)).
  generalize (opt_float_or_zero (production_value_per_hour context)).
  intros v a h Hh H su g. cbv zeta.
  assert (E : v * h == 0).
  { destruct H as [H | H].
    - rewrite H. ring.
    - rewrite Hh, H. rewrite Q.min_l by discriminate. ring. }
  revert E. generalize (v * h). intros A E.
  generalize (0.5 + g / 100.0). intro s.
  assert (Z : forall d, A * d * s == 0) by (intro d; rewrite E; ring).
  unfold py_max. scases; qcases; try rewrite Z; lra.
Qed.

End Cost.

(** X10: with an area ratio that is not negative and a production value
    between 0 and 1e300 (beyond, the double product overflows), the
    reported estimated cost lies between 0 and
    12.01 x production value x min(area ratio, 1) + 0.01, and the reported
    mitigated cost is not negative.  Exactly computed, the cost is at most
    12 x production value x min(area ratio, 1): 4 hours, damage factor 2
    and severity factor 1.5 at most; the rest covers the rounding. *)
Theorem estimated_cost_bounded
    (img : string) (det : Detection) (rest : list Detection)
    (context : Context) :
  0 <= production_value_of context ->
  production_value_of context <= 1e300 ->
  0 <= area_of det ->
  let r := build_risk_result img (det :: rest) context in
  0 <= estimated_cost r
  /\ estimated_cost r
     <= 12.01 * production_value_of context * Qmin (area_of det) 1 + 0.01
  /\ exists mc, mitigated_cost r = Some mc /\ 0 <= mc.
Proof.
  intros Hv _ Ha r. subst r.
  rewrite estimated_cost_eq, mitigated_cost_eq.
  pose proof (estimated_cost_at_upper det context Hv Ha) as Hu.
  pose proof (estimated_cost_at_nonneg det context) as H0.
  pose proof (py_round_near (estimated_cost_at det context) 2) as Hn.
  change (pow10 2) with (inject_Z 100) in Hn.
  setoid_replace ((1 # 2) / inject_Z 100) with 0.005 in Hn by reflexivity.
  assert (Hk : 0 <= production_value_of context * Qmin (area_of det) 1).
  { apply Qmult_le_0_compat; [exact Hv |].
    apply Q.min_glb; [exact Ha | discriminate]. }
  split; [| split].
  - rewrite <- (py_round_0 2). now apply py_round_mono.
  - revert Hu Hk.
    rewrite <- !Qmult_assoc.
    generalize (production_value_of context * Qmin (area_of det) 1).
    intros k Hu Hk. lra.
  - eexists. split; [reflexivity |].
    rewrite <- (py_round_0 2). apply py_round_mono.
    apply mitigated_cost_at_nonneg.
Qed.

Lemma estimated_cost_bounded_witness :
  estimated_cost (concrete_floor_result 0.93 8000)
  <= 12.01 * 8000 * Qmin 0.30 1 + 0.01.
Proof.
  apply (estimated_cost_bounded "img_001" (oil_detection 0.93) []
           (production_context "concrete" 8000));
    vm_compute; discriminate.
Defined.

(** X11: when the production value or the area ratio is missing or zero,
    the reported estimated cost and the reported mitigated cost are 0. *)
Theorem no_production_or_no_area_costs_nothing
    (img : string) (det : Detection) (rest : list Detection)
    (context : Context) :
  production_value_of context == 0 \/ area_of det == 0 ->
  let r := build_risk_result img (det :: rest) context in
  estimated_cost r == 0
  /\ exists mc, mitigated_cost r = Some mc /\ mc == 0.
Proof.
  intros H r. subst r.
  rewrite estimated_cost_eq, mitigated_cost_eq.
  pose proof (estimated_cost_at_zero det context H) as E.
  split.
  - rewrite (py_round_comp _ 0 2 E). apply py_round_0.
  - eexists. split; [reflexivity |].
    rewrite (py_round_comp (mitigated_cost_at det context) 0 2).
    + apply py_round_0.
    + rewrite mitigated_cost_at_eq, E. ring.
Qed.

Lemma no_production_or_no_area_costs_nothing_witness :
  estimated_cost
    (build_risk_result "img_001" [oil_detection 0.93]
       {| site_id := "SITE_001"; zone_id := None;
          zone_type := Some "production";
          proximity_to_machines := Some "near_machine";
          floor_type := None; production_value_per_hour := None |})
  == 0.
Proof.
  apply (no_production_or_no_area_costs_nothing "img_001"
           (oil_detection 0.93) []).
  left. reflexivity.
Defined.

(* ================================================================= *)
(** ** Recommendations and the level *)

(** The list [_build_recommendations] returns for the level of [g]. *)
Lemma build_recommendations_shape
    (g : Q) (det : Detection) (context : Context) :
  let recs := _build_recommendations (_severity_level g) det context in
  (2 <= length recs <= 5)%nat
  /\ hd_error recs = Some rec_isolate
  /\ if Qlt_le_dec g 50
     then last recs "" = rec_document /\ ~ In rec_inform_hse recs
     else last recs "" = rec_document_root_causes /\ In rec_inform_hse recs.
Proof.
  intro recs. subst recs. rewrite severity_level_spec.
  unfold spec_level, _build_recommendations.
  generalize (lower (str_or (substance_pred det) "unknown")).
  generalize (lower (opt_str_or (zone_type context) "")).
  intros zn su. cbv zeta.
  destruct (Qlt_le_dec g 25); destruct (Qlt_le_dec g 50);
    destruct (Qlt_le_dec g 75); try (exfalso; lra);
    cbn [level_name String.eqb Ascii.eqb Bool.eqb orb];
    destruct (su =? "oil")%string; destruct (su =? "water")%string;
    destruct (su =? "chemical")%string;
    destruct (zn =? "electrical_room")%string;
    cbn [app length hd_error last];
    (split; [lia | split; [reflexivity | split; [reflexivity |]]]);
    cbn [In]; solve [ intuition discriminate | auto 10 ].
Qed.

(** X12: for a non-empty detections list the recommendations have between
    two and five entries and start with the isolation instruction; either
    they end with the plain documentation instruction and have no
    escalation, or they contain the escalation and end with the
    documentation and root-cause instruction.  A reported global score
    below 50 gives the first form and one above 50 the second; a reported
    50.0 can come with either, the level being read before the rounding. *)
Theorem recommendations_shape
    (img : string) (det : Detection) (rest : list Detection)
    (context : Context) :
  let r := build_risk_result img (det :: rest) context in
  let plain :=
    last (recommendations r) "" = rec_document
    /\ ~ In rec_inform_hse (recommendations r) in
  let escalated :=
    last (recommendations r) "" = rec_document_root_causes
    /\ In rec_inform_hse (recommendations r) in
  (2 <= length (recommendations r) <= 5)%nat
  /\ hd_error (recommendations r) = Some rec_isolate
  /\ (plain \/ escalated)
  /\ match Qcompare (global_severity_score r) 50 with
     | Lt => plain
     | Gt => escalated
     | Eq => True
     end.
Proof.
  intros r plain escalated. subst plain escalated r.
  rewrite recommendations_eq, global_severity_score_eq.
  destruct (build_recommendations_shape (global_score_of det context) det
              context) as [Hlen [Hhd Hlast]].
  split; [exact Hlen | split; [exact Hhd |]].
  assert (E50 : py_round 50 2 == 50) by reflexivity.
  destruct (Qlt_le_dec (global_score_of det context) 50) as [Hlt | Hge].
  - split; [left; exact Hlast |].
    destruct (Qcompare_spec (py_round (global_score_of det context) 2) 50)
      as [_ | _ | Hgt]; [exact I | exact Hlast |].
    exfalso.
    assert (H : py_round (global_score_of det context) 2 <= py_round 50 2)
      by (apply py_round_mono; lra).
    lra.
  - split; [right; exact Hlast |].
    destruct (Qcompare_spec (py_round (global_score_of det context) 2) 50)
      as [_ | Hlt | _]; [exact I | | exact Hlast].
    exfalso.
    assert (H : py_round 50 2 <= py_round (global_score_of det context) 2)
      by (apply py_round_mono; exact Hge).
    lra.
Qed.

(* ================================================================= *)
(** ** Letter case of the substance, zone, proximity and floor *)

Section LetterCase.

Lemma lower_str_or (s1 s2 d : string) :
  lower s1 = lower s2 -> lower (str_or s1 d) = lower (str_or s2 d).
Proof.
  unfold str_or.
  destruct s1, s2; cbn; intro H; try discriminate H; congruence.
Qed.

Lemma lower_opt_str_or (o1 o2 : option string) (d : string) :
  option_map lower o1 = option_map lower o2 ->
  lower (opt_str_or o1 d) = lower (opt_str_or o2 d).
Proof.
  destruct o1, o2; cbn; intro H; try discriminate H; [| reflexivity].
  apply lower_str_or. congruence.
Qed.

Variables (d1 d2 : Detection) (c1 c2 : Context).

Hypothesis substance_case :
  lower (substance_pred d1) = lower (substance_pred d2).
Hypothesis zone_case :
  option_map lower (zone_type c1) = option_map lower (zone_type c2).
Hypothesis proximity_case :
  option_map lower (proximity_to_machines c1)
  = option_map lower (proximity_to_machines c2).
Hypothesis floor_case :
  option_map lower (floor_type c1) = option_map lower (floor_type c2).
Hypothesis same_confidence : confidence d1 = confidence d2.
Hypothesis same_area : area_ratio d1 = area_ratio d2.
Hypothesis same_production :
  production_value_per_hour c1 = production_value_per_hour c2.

Lemma physical_score_case : _physical_score d1 c1 = _physical_score d2 c2.
Proof.
  unfold _physical_score.
  rewrite (lower_str_or _ _ "unknown" substance_case),
    (lower_opt_str_or _ _ "" floor_case), same_area.
  reflexivity.
Qed.

Lemma electrical_score_case :
  _electrical_score d1 c1 = _electrical_score d2 c2.
Proof.
  unfold _electrical_score.
  rewrite (lower_str_or _ _ "unknown" substance_case),
    (lower_opt_str_or _ _ "" zone_case),
    (lower_opt_str_or _ _ "" proximity_case), same_area.
  reflexivity.
Qed.

Lemma human_safety_score_case :
  _human_safety_score d1 c1 = _human_safety_score d2 c2.
Proof.
  unfold _human_safety_score.
  rewrite (lower_str_or _ _ "unknown" substance_case),
    (lower_opt_str_or _ _ "" proximity_case), same_area.
  reflexivity.
Qed.

Lemma business_score_case : _business_score d1 c1 = _business_score d2 c2.
Proof.
  unfold _business_score.
  rewrite (lower_opt_str_or _ _ "" zone_case), same_area, same_production.
  reflexivity.
Qed.

Lemma model_confidence_score_case :
  _model_confidence_score d1 = _model_confidence_score d2.
Proof. unfold _model_confidence_score. now rewrite same_confidence. Qed.

Lemma estimate_cost_case (g : Q) :
  _estimate_cost g d1 c1 = _estimate_cost g d2 c2.
Proof.
  unfold _estimate_cost.
  rewrite (lower_str_or _ _ "unknown" substance_case), same_area,
    same_production.
  reflexivity.
Qed.

Lemma build_recommendations_case (level : string) :
  _build_recommendations level d1 c1 = _build_recommendations level d2 c2.
Proof.
  unfold _build_recommendations.
  rewrite (lower_str_or _ _ "unknown" substance_case),
    (lower_opt_str_or _ _ "" zone_case).
  reflexivity.
Qed.

Lemma global_score_of_case : global_score_of d1 c1 = global_score_of d2 c2.
Proof.
  unfold global_score_of.
  now rewrite physical_score_case, electrical_score_case,
    human_safety_score_case, business_score_case,
    model_confidence_score_case.
Qed.

Lemma mitigated_score_at_case :
  mitigated_score_at d1 c1 = mitigated_score_at d2 c2.
Proof.
  unfold mitigated_score_at.
  now rewrite physical_score_case, electrical_score_case,
    human_safety_score_case, business_score_case,
    model_confidence_score_case.
Qed.

Lemma estimated_cost_at_case :
  estimated_cost_at d1 c1 = estimated_cost_at d2 c2.
Proof.
  unfold estimated_cost_at.
  now rewrite global_score_of_case, estimate_cost_case.
Qed.

End LetterCase.

(** X13: the engine matches substance, zone type, proximity and floor
    description without regard to letter case: two inputs that differ only
    in the case of these four strings get the same factors, scores, levels,
    costs, risk reduction and recommendations. *)
Theorem matching_ignores_letter_case
    (img1 img2 : string) (d1 d2 : Detection) (rest1 rest2 : list Detection)
    (c1 c2 : Context) :
  lower (substance_pred d1) = lower (substance_pred d2) ->
  option_map lower (zone_type c1) = option_map lower (zone_type c2) ->
  option_map lower (proximity_to_machines c1)
  = option_map lower (proximity_to_machines c2) ->
  option_map lower (floor_type c1) = option_map lower (floor_type c2) ->
  confidence d1 = confidence d2 ->
  area_ratio d1 = area_ratio d2 ->
  production_value_per_hour c1 = production_value_per_hour c2 ->
  let r1 := build_risk_result img1 (d1 :: rest1) c1 in
  let r2 := build_risk_result img2 (d2 :: rest2) c2 in
  factors r1 = factors r2
  /\ global_severity_score r1 = global_severity_score r2
  /\ global_severity_level r1 = global_severity_level r2
  /\ estimated_cost r1 = estimated_cost r2
  /\ mitigated_severity_score r1 = mitigated_severity_score r2
  /\ mitigated_severity_level r1 = mitigated_severity_level r2
  /\ mitigated_cost r1 = mitigated_cost r2
  /\ risk_reduction_pct r1 = risk_reduction_pct r2
  /\ recommendations r1 = recommendations r2.
Proof.
  intros Hs Hz Hp Hf Hc Ha Hv r1 r2. subst r1 r2.
  rewrite !factors_eq, !global_severity_score_eq, !global_severity_level_eq,
    !estimated_cost_eq, !mitigated_severity_score_eq,
    !mitigated_severity_level_eq, !mitigated_cost_eq, !risk_reduction_pct_eq,
    !recommendations_eq.
  unfold mitigated_cost_at.
  rewrite (physical_score_case d1 d2 c1 c2 Hs Hf Ha),
    (electrical_score_case d1 d2 c1 c2 Hs Hz Hp Ha),
    (human_safety_score_case d1 d2 c1 c2 Hs Hp Ha),
    (business_score_case d1 d2 c1 c2 Hz Ha Hv),
    (model_confidence_score_case d1 d2 Hc),
    (global_score_of_case d1 d2 c1 c2 Hs Hz Hp Hf Hc Ha Hv),
    (mitigated_score_at_case d1 d2 c1 c2 Hs Hz Hp Hf Hc Ha Hv),
    (estimated_cost_at_case d1 d2 c1 c2 Hs Hz Hp Hf Hc Ha Hv),
    (build_recommendations_case d1 d2 c1 c2 Hs Hz).
  repeat split.
Qed.

Lemma matching_ignores_letter_case_witness :
  global_severity_score
    (build_risk_result "img_001"
       [{| id := "det_1"; label := "spill"; substance_pred := "OIL";
           confidence := 0.93; area_ratio := Some 0.30 |}]
       {| site_id := "SITE_001"; zone_id := Some "Z1";
          zone_type := Some "Production";
          proximity_to_machines := Some "Near_Machine";
          floor_type := Some "Concrete";
          production_value_per_hour := Some 8000 |})
  = global_severity_score (concrete_floor_result 0.93 8000).
Proof.
  apply (matching_ignores_letter_case "img_001" "img_001"
           {| id := "det_1"; label := "spill"; substance_pred := "OIL";
              confidence := 0.93; area_ratio := Some 0.30 |}
           (oil_detection 0.93) [] []
           {| site_id := "SITE_001"; zone_id := Some "Z1";
              zone_type := Some "Production";
              proximity_to_machines := Some "Near_Machine";
              floor_type := Some "Concrete";
              production_value_per_hour := Some 8000 |}
           (production_context "concrete" 8000));
    reflexivity.
Defined.

(* ================================================================= *)
(** ** The layout of the incident report *)

Lemma cm_pos : 0 < cm.
Proof. reflexivity. Qed.

Lemma height_cm : height == 29.7 * cm.
Proof. reflexivity. Qed.

Lemma page_count_app (l1 l2 : list CanvasOp) :
  page_count (l1 ++ l2) = (page_count l1 + page_count l2)%nat.
Proof. unfold page_count. now rewrite filter_app, length_app. Qed.

Lemma placed_above_weaken (low low' : Q) (op : CanvasOp) :
  low' <= low -> placed_above low op -> placed_above low' op.
Proof.
  intro H. destruct op; cbn; try tauto.
  - intros [Hx [H0 H1]]. split; [exact Hx | lra].
  - intros [Hx [H0 H1]]. split; [exact Hx | lra].
Qed.

(** Split a goal about the placement of a list of canvas calls into the
    inequalities on the cursor. *)
Ltac placement :=
  repeat match goal with
    | |- Forall _ (_ ++ _) => apply Forall_app; split
    | |- Forall _ (_ :: _) => apply Forall_cons
    | |- Forall _ [] => apply Forall_nil
    | |- Forall _ _ => assumption
    | |- placed_above _ _ => cbn [placed_above text_x text_y]
    | |- _ /\ _ => split
    | |- True => exact I
    | |- ?a == ?a => reflexivity
    end.

(** Both loops of the report: one line per item, 0.6 cm apart. *)
Section Loop.

Variables (A : Type) (txt : A -> string) (step : Pen -> A -> Pen).

Hypothesis step_eq :
  forall pen a,
    step pen a
    = break_page_if_low
        (move_down (emit pen (DrawString (2 * cm) (y pen) (txt a)))
           (0.6 * cm)).

Lemma qlen_cons (a : A) (items : list A) :
  qlen (a :: items) == qlen items + 1.
Proof.
  unfold qlen. cbn [length]. rewrite Nat2Z.inj_succ, <- Z.add_1_r.
  now rewrite inject_Z_plus.
Qed.

Lemma qlen_nonneg (items : list A) : 0 <= qlen items.
Proof.
  unfold qlen. change 0 with (inject_Z 0). rewrite <- Zle_Qle. lia.
Qed.

(** Whatever the number of items, every line is drawn between [L] and the
    top margin, and the cursor stays there. *)
Lemma loop_placed (low L : Q) (items : list A) :
  low <= L -> L <= 3 * cm ->
  forall pen,
    Forall (placed_above low) (ops pen) ->
    L <= y pen <= height - 2 * cm ->
    Forall (placed_above low) (ops (fold_left step items pen))
    /\ L <= y (fold_left step items pen) <= height - 2 * cm.
Proof.
  intros Hlow HL.
  pose proof cm_pos as Hcm. pose proof height_cm as Hh.
  induction items as [| a items IH]; intros pen Hops Hy; [now split |].
  cbn [fold_left]. apply IH; rewrite step_eq; unfold break_page_if_low;
    cbn [emit move_down ops y];
    destruct (Qlt_bool_spec (y pen - 0.6 * cm) (3 * cm));
    cbn [emit move_down ops y].
  - placement; lra.
  - placement; lra.
  - lra.
  - lra.
Qed.

(** While the cursor stays at 3 cm or above, no page is broken. *)
Lemma loop_fits (low : Q) (items : list A) :
  forall pen,
    page_count (ops pen) = 0%nat ->
    Forall (placed_above low) (ops pen) ->
    3 * cm <= y pen - 0.6 * cm * qlen items ->
    low <= y pen - 0.6 * cm * qlen items ->
    y pen <= height - 2 * cm ->
    page_count (ops (fold_left step items pen)) = 0%nat
    /\ Forall (placed_above low) (ops (fold_left step items pen))
    /\ y (fold_left step items pen) == y pen - 0.6 * cm * qlen items.
Proof.
  pose proof cm_pos as Hcm.
  induction items as [| a items IH]; intros pen Hpc Hops H3 Hlow Htop.
  - repeat split; try assumption. unfold qlen. cbn. ring.
  - pose proof (qlen_cons a items) as Hq.
    pose proof (qlen_nonneg items) as Hn.
    assert (Hq3 : 0.6 * cm * qlen (a :: items)
                  == 0.6 * cm * qlen items + 0.6 * cm)
      by (rewrite Hq; ring).
    assert (Hm : 0 <= 0.6 * cm * qlen items) by nra.
    cbn [fold_left].
    assert (E : step pen a
                = move_down (emit pen (DrawString (2 * cm) (y pen) (txt a)))
                    (0.6 * cm)).
    { rewrite step_eq. unfold break_page_if_low. cbn [emit move_down ops y].
      destruct (Qlt_bool_spec (y pen - 0.6 * cm) (3 * cm)); [lra | reflexivity]. }
    rewrite E.
    destruct (IH (move_down (emit pen (DrawString (2 * cm) (y pen) (txt a)))
                    (0.6 * cm))) as [P1 [P2 P3]];
      cbn [emit move_down ops y].
    + rewrite page_count_app, Hpc. reflexivity.
    + placement; lra.
    + lra.
    + lra.
    + lra.
    + repeat split; try assumption.
      rewrite P3. cbn [emit move_down ops y]. lra.
Qed.

End Loop.

Lemma draw_factor_eq (pen : Pen) (f : RiskFactor) :
  draw_factor pen f
  = break_page_if_low
      (move_down (emit pen (DrawString (2 * cm) (y pen) (factor_line f)))
         (0.6 * cm)).
Proof. reflexivity. Qed.

Lemma draw_recommendation_eq (pen : Pen) (rec : string) :
  draw_recommendation pen rec
  = break_page_if_low
      (move_down
         (emit pen (DrawString (2 * cm) (y pen) ("- " ++ rec)%string))
         (0.6 * cm)).
Proof. reflexivity. Qed.

Section Stages.

Variables (result : RiskResult) (low : Q).

Let top := height - 2 * cm.

Lemma summary_spec :
  low <= 22.7 * cm ->
  Forall (placed_above low) (ops (draw_summary result))
  /\ page_count (ops (draw_summary result)) = 0%nat
  /\ 21.7 * cm <= y (draw_summary result) <= top.
Proof.
  intro Hlow. subst top.
  pose proof cm_pos as Hcm. pose proof height_cm as Hh.
  unfold draw_summary.
  destruct (mitigated_severity_score result), (mitigated_cost result),
    (risk_reduction_pct result);
    cbn [emit move_down ops y app];
    (split; [placement; lra | split; [reflexivity | lra]]).
Qed.

Lemma factors_placed (pen : Pen) :
  low <= 3 * cm ->
  Forall (placed_above low) (ops pen) ->
  3.8 * cm <= y pen <= top ->
  Forall (placed_above low) (ops (draw_factors result pen))
  /\ 3 * cm <= y (draw_factors result pen) <= top.
Proof.
  intros Hlow Hops Hy. subst top.
  pose proof cm_pos as Hcm.
  unfold draw_factors.
  apply (loop_placed RiskFactor factor_line draw_factor draw_factor_eq low);
    cbn [emit move_down ops y]; try lra.
  placement; lra.
Qed.

Lemma recommendations_placed (pen : Pen) :
  low <= 1.7 * cm ->
  Forall (placed_above low) (ops pen) ->
  3 * cm <= y pen <= top ->
  Forall (placed_above low) (ops (draw_recommendations result pen))
  /\ 1.7 * cm <= y (draw_recommendations result pen) <= top.
Proof.
  intros Hlow Hops Hy. subst top.
  pose proof cm_pos as Hcm.
  unfold draw_recommendations.
  apply (loop_placed string (fun rec => ("- " ++ rec)%string)
           draw_recommendation draw_recommendation_eq low);
    cbn [emit move_down ops y]; try lra.
  placement; lra.
Qed.

Lemma explanation_placed (pen : Pen) :
  Forall (placed_above low) (ops pen) ->
  low + 0.5 * cm <= y pen <= top ->
  Forall (placed_above low) (ops (draw_explanation result pen))
  /\ page_count (ops (draw_explanation result pen)) = page_count (ops pen).
Proof.
  intros Hops Hy. subst top.
  pose proof cm_pos as Hcm.
  unfold draw_explanation. cbn [emit move_down ops y]. split.
  - placement; lra.
  - rewrite !page_count_app. cbn. lia.
Qed.

Lemma factors_fit (pen : Pen) (L : Q) :
  page_count (ops pen) = 0%nat ->
  Forall (placed_above low) (ops pen) ->
  L <= y pen <= top ->
  low <= L - 0.8 * cm - 0.6 * cm * qlen (factors result) ->
  3 * cm <= L - 0.8 * cm - 0.6 * cm * qlen (factors result) ->
  page_count (ops (draw_factors result pen)) = 0%nat
  /\ Forall (placed_above low) (ops (draw_factors result pen))
  /\ L - 0.8 * cm - 0.6 * cm * qlen (factors result)
     <= y (draw_factors result pen) <= top.
Proof.
  intros Hpc Hops Hy Hlow H3. subst top.
  pose proof cm_pos as Hcm.
  pose proof (qlen_nonneg RiskFactor (factors result)) as Hn.
  assert (Hm : 0 <= 0.6 * cm * qlen (factors result)) by nra.
  unfold draw_factors.
  destruct (loop_fits RiskFactor factor_line draw_factor draw_factor_eq low
              (factors result)
              (emit
                 (move_down
                    (emit (emit pen (SetFont "Helvetica-Bold" 12))
                       (DrawString (2 * cm)
                          (y (emit pen (SetFont "Helvetica-Bold" 12)))
                          "Facteurs de risque :"))
                    (0.8 * cm))
                 (SetFont "Helvetica" 10)))
    as [P1 [P2 P3]]; cbn [emit move_down ops y] in *; try lra.
  - rewrite !page_count_app, Hpc. reflexivity.
  - placement; lra.
  - split; [exact P1 | split; [exact P2 |]]. rewrite P3. lra.
Qed.

Lemma recommendations_fit (pen : Pen) (L : Q) :
  page_count (ops pen) = 0%nat ->
  Forall (placed_above low) (ops pen) ->
  L <= y pen <= top ->
  low <= L - 1.3 * cm - 0.6 * cm * qlen (recommendations result) ->
  3 * cm <= L - 1.3 * cm - 0.6 * cm * qlen (recommendations result) ->
  page_count (ops (draw_recommendations result pen)) = 0%nat
  /\ Forall (placed_above low) (ops (draw_recommendations result pen))
  /\ L - 1.3 * cm - 0.6 * cm * qlen (recommendations result)
     <= y (draw_recommendations result pen) <= top.
Proof.
  intros Hpc Hops Hy Hlow H3. subst top.
  pose proof cm_pos as Hcm.
  pose proof (qlen_nonneg string (recommendations result)) as Hn.
  assert (Hm : 0 <= 0.6 * cm * qlen (recommendations result)) by nra.
  unfold draw_recommendations.
  destruct (loop_fits string (fun rec => ("- " ++ rec)%string)
              draw_recommendation draw_recommendation_eq low
              (recommendations result)
              (emit
                 (move_down
                    (emit
                       (emit (move_down pen (0.5 * cm))
                          (SetFont "Helvetica-Bold" 12))
                       (DrawString (2 * cm)
                          (y (emit (move_down pen (0.5 * cm))
                                (SetFont "Helvetica-Bold" 12)))
                          "Recommandations :"))
                    (0.8 * cm))
                 (SetFont "Helvetica" 10)))
    as [P1 [P2 P3]]; cbn [emit move_down ops y] in *; try lra.
  - rewrite !page_count_app, Hpc. reflexivity.
  - placement; lra.
  - split; [exact P1 | split; [exact P2 |]]. rewrite P3. lra.
Qed.

End Stages.

(** X14: whatever the result (any number of factors and recommendations,
    optional fields present or not), every string of the report is drawn at
    x = 2 cm, between 1.2 cm above the bottom of the page and the 2 cm top
    margin, and the explanation block starts at 0.4 cm or higher. *)
Theorem report_strings_stay_on_the_page (result : RiskResult) :
  Forall (placed_above (1.2 * cm)) (generate_incident_pdf result)
  /\ (1 <= page_count (generate_incident_pdf result))%nat.
Proof.
  pose proof cm_pos as Hcm.
  unfold generate_incident_pdf, generate_incident_pen. cbv zeta.
  destruct (summary_spec result (1.2 * cm)) as [S1 [_ S3]]; [lra |].
  destruct (factors_placed result (1.2 * cm) (draw_summary result))
    as [F1 F2]; [lra | exact S1 | lra |].
  destruct (recommendations_placed result (1.2 * cm)
              (draw_factors result (draw_summary result)))
    as [R1 R2]; [lra | exact F1 | exact F2 |].
  destruct (explanation_placed result (1.2 * cm)
              (draw_recommendations result
                 (draw_factors result (draw_summary result))))
    as [E1 _]; [exact R1 | lra |].
  cbn [emit ops y]. split.
  - placement.
  - rewrite !page_count_app. cbn. lia.
Qed.

(** A report with at most [N] lines of factors and recommendations. *)
Lemma report_fits_with (result : RiskResult) (N : Q) :
  qlen (factors result) + qlen (recommendations result) <= N -> N <= 27 ->
  page_count (generate_incident_pdf result) = 1%nat
  /\ Forall (placed_above ((19.1 - 0.6 * N) * cm))
       (generate_incident_pdf result).
Proof.
  intros HN H27.
  pose proof cm_pos as Hcm. pose proof height_cm as Hh.
  pose proof (qlen_nonneg RiskFactor (factors result)) as Hf.
  pose proof (qlen_nonneg string (recommendations result)) as Hr.
  set (nf := qlen (factors result)) in *.
  set (nr := qlen (recommendations result)) in *.
  assert (Kf : 0 <= cm * nf) by nra.
  assert (Kr : 0 <= cm * nr) by nra.
  assert (KN : cm * nf + cm * nr <= cm * N) by nra.
  assert (K27 : cm * N <= 27 * cm) by nra.
  set (low := (19.1 - 0.6 * N) * cm).
  assert (Elow : low == 19.1 * cm - 0.6 * (cm * N)) by (subst low; ring).
  unfold generate_incident_pdf, generate_incident_pen. cbv zeta.
  destruct (summary_spec result low) as [S1 [S2 S3]]; [lra |].
  destruct (factors_fit result low (draw_summary result) (21.7 * cm))
    as [F1 [F2 F3]]; fold nf; try assumption; try lra.
  destruct (recommendations_fit result low
              (draw_factors result (draw_summary result))
              (21.7 * cm - 0.8 * cm - 0.6 * cm * nf))
    as [R1 [R2 R3]]; fold nr; try assumption; try lra.
  destruct (explanation_placed result low
              (draw_recommendations result
                 (draw_factors result (draw_summary result))))
    as [E1 E2]; [exact R2 | fold nf nr in R3; lra |].
  cbn [emit ops y]. split.
  - rewrite !page_count_app, E2, R1. reflexivity.
  - placement.
Qed.

(** X15: a result with at most 27 factors and recommendations in total is
    printed on a single page; with N the number of its factors and
    recommendations, no [drawString] line lies below 19.1 cm - 0.6 cm x N
    and the explanation block starts at 18.3 cm - 0.6 cm x N or higher (its
    lines then follow 14 points apart, as many as the explanation has
    sentences). *)
Theorem report_with_27_lines_fits_one_page (result : RiskResult) :
  qlen (factors result) + qlen (recommendations result) <= 27 ->
  page_count (generate_incident_pdf result) = 1%nat
  /\ Forall
       (placed_above
          ((19.1 - 0.6 * (qlen (factors result)
                          + qlen (recommendations result))) * cm))
       (generate_incident_pdf result).
Proof.
  intro H.
  apply report_fits_with.
  - apply Qle_refl.
  - exact H.
Qed.

Lemma report_with_27_lines_fits_one_page_witness :
  page_count (generate_incident_pdf scenario_result) = 1%nat.
Proof.
  apply (report_with_27_lines_fits_one_page scenario_result).
  vm_compute. discriminate.
Defined.

Lemma engine_result_lengths
    (img : string) (detections : list Detection) (context : Context) :
  let r := build_risk_result img detections context in
  qlen (factors r) + qlen (recommendations r) <= 10.
Proof.
  intro r. subst r. destruct detections as [| det rest].
  - discriminate.
  - rewrite factors_eq, recommendations_eq.
    unfold _build_recommendations.
    generalize (_severity_level (global_score_of det context)).
    generalize (lower (str_or (substance_pred det) "unknown")).
    generalize (lower (opt_str_or (zone_type context) "")).
    intros zn su lv. cbv zeta.
    destruct (su =? "oil")%string; destruct (su =? "water")%string;
      destruct (su =? "chemical")%string;
      destruct (zn =? "electrical_room")%string;
      destruct ((lv =? "HIGH") || (lv =? "CRITICAL"))%string;
      discriminate.
Qed.

(** X16: the report of a result of the engine always has one page: for
    every image identifier, detections list (the empty one included) and
    context, [generate_incident_pdf] breaks no page on the result of
    [build_risk_result], draws no [drawString] line below 13.1 cm and
    starts the explanation block at 12.3 cm or higher. *)
Theorem engine_report_is_one_page
    (img : string) (detections : list Detection) (context : Context) :
  let trace :=
    generate_incident_pdf (build_risk_result img detections context) in
  page_count trace = 1%nat /\ Forall (placed_above (13.1 * cm)) trace.
Proof.
  intro trace. subst trace.
  pose proof (engine_result_lengths img detections context) as H.
  cbv zeta in H.
  destruct (report_fits_with _ 10 H) as [P1 P2]; [discriminate |].
  split; [exact P1 |].
  eapply Forall_impl; [| exact P2].
  intros op Hop. apply (placed_above_weaken ((19.1 - 0.6 * 10) * cm)).
  - pose proof cm_pos. lra.
  - exact Hop.
Qed.

(* ================================================================= *)
(** ** The dashboard colour of a level *)

Lemma level_color_of_severity_level (score : Q) :
  level_color (Some (_severity_level score))
  = match spec_level score with
    | LOW => "#16a34a"
    | MEDIUM => "#ea580c"
    | HIGH => "#b91c1c"
    | CRITICAL => "#7f1d1d"
    end.
Proof.
  rewrite severity_level_spec. destruct (spec_level score); reflexivity.
Qed.

(** [lower] seen on the bytes of the string. *)
Lemma lower_ascii_byte (c : ascii) :
  nat_of_ascii (lower_ascii c)
  = (if (65 <=? nat_of_ascii c) && (nat_of_ascii c <=? 90)
     then nat_of_ascii c + 32 else nat_of_ascii c)%nat.
Proof.
  unfold lower_ascii.
  destruct (Nat.leb_spec 65%nat (nat_of_ascii c));
    destruct (Nat.leb_spec (nat_of_ascii c) 90%nat);
    cbn [andb]; try reflexivity.
  apply nat_ascii_embedding. lia.
Qed.

Lemma upper_byte_of_lower (c : ascii) :
  (if (97 <=? nat_of_ascii (lower_ascii c))
      && (nat_of_ascii (lower_ascii c) <=? 122)
   then nat_of_ascii (lower_ascii c) - 32
   else nat_of_ascii (lower_ascii c))%nat
  = (if (97 <=? nat_of_ascii c) && (nat_of_ascii c <=? 122)
     then nat_of_ascii c - 32 else nat_of_ascii c)%nat.
Proof.
  rewrite lower_ascii_byte.
  generalize (nat_of_ascii c). intro n.
  destruct (Nat.leb_spec 65%nat n); destruct (Nat.leb_spec n 90%nat);
    cbn [andb];
    try reflexivity.
  destruct (Nat.leb_spec 97%nat (n + 32)%nat);
    destruct (Nat.leb_spec (n + 32)%nat 122%nat);
    destruct (Nat.leb_spec 97%nat n); destruct (Nat.leb_spec n 122%nat);
    cbn [andb]; lia.
Qed.

Lemma lower_ascii_keeps (c : ascii) (k : nat) :
  (k < 65 \/ 122 < k)%nat ->
  (nat_of_ascii (lower_ascii c) =? k)%nat = (nat_of_ascii c =? k)%nat.
Proof.
  intro Hk. rewrite lower_ascii_byte.
  generalize (nat_of_ascii c). intro n.
  destruct (Nat.leb_spec 65%nat n); destruct (Nat.leb_spec n 90%nat);
    cbn [andb];
    try reflexivity.
  destruct (Nat.eqb_spec (n + 32)%nat k); destruct (Nat.eqb_spec n k);
    try reflexivity; lia.
Qed.

Lemma upper_bytes_cons2 (b b1 : nat) (l2 : list nat) :
  upper_bytes (b :: b1 :: l2)
  = if ((b =? 196) && (b1 =? 177))%nat then 73%nat :: upper_bytes l2
    else (if ((97 <=? b) && (b <=? 122))%nat then (b - 32)%nat else b)
           :: upper_bytes (b1 :: l2).
Proof. reflexivity. Qed.

(** [upper] does not see what [lower] changes. *)
Lemma upper_bytes_of_lower (s : string) :
  upper_bytes (bytes_of (lower s)) = upper_bytes (bytes_of s)
  /\ forall c,
       upper_bytes (bytes_of (lower (String c s)))
       = upper_bytes (bytes_of (String c s)).
Proof.
  unfold bytes_of.
  induction s as [| c1 s IH].
  - split; [reflexivity |].
    intro c. cbn [lower list_ascii_of_string map upper_bytes].
    now rewrite upper_byte_of_lower.
  - destruct IH as [IH0 IH1]. split; [apply IH1 |].
    intro c. specialize (IH1 c1).
    cbn [lower list_ascii_of_string map] in IH1 |- *.
    rewrite !upper_bytes_cons2.
    rewrite !lower_ascii_keeps by (right; lia).
    rewrite upper_byte_of_lower.
    destruct ((nat_of_ascii c =? 196) && (nat_of_ascii c1 =? 177))%nat.
    + now rewrite IH0.
    + f_equal. exact IH1.
Qed.

Lemma upper_of_lower (s : string) : upper (lower s) = upper s.
Proof.
  unfold upper. now rewrite (proj1 (upper_bytes_of_lower s)).
Qed.

Lemma lower_empty (s : string) :
  (lower s =? "")%string = (s =? "")%string.
Proof. destruct s; reflexivity. Qed.

(** [level_color] on a string and on its lower-case form. *)
Lemma level_color_of_lower (s : string) :
  level_color (Some (lower s)) = level_color (Some s).
Proof.
  unfold level_color. now rewrite lower_empty, upper_of_lower.
Qed.

(** X17: [level_color] gives each level the engine can return its own
    colour and never the fallback colour.  It ignores the case of the
    letters A to Z: two level strings with the same lower-case form get the
    same colour, the one of LOW, MEDIUM, HIGH or CRITICAL when they spell
    that name.  A missing or empty level gets the fallback colour, and no
    input gets a colour other than these five. *)
Theorem level_color_of_engine_levels
    (img : string) (detections : list Detection) (context : Context) :
  let r := build_risk_result img detections context in
  level_color (Some (global_severity_level r)) <> default_color
  /\ level_color (mitigated_severity_level r) <> default_color
  /\ (level_color (Some (global_severity_level r))
      = level_color (mitigated_severity_level r) ->
      Some (global_severity_level r) = mitigated_severity_level r)
  /\ (forall s t : string,
        lower s = lower t -> level_color (Some s) = level_color (Some t))
  /\ (forall s : string,
        (lower s = "low" -> level_color (Some s) = "#16a34a")
        /\ (lower s = "medium" -> level_color (Some s) = "#ea580c")
        /\ (lower s = "high" -> level_color (Some s) = "#b91c1c")
        /\ (lower s = "critical" -> level_color (Some s) = "#7f1d1d"))
  /\ level_color None = default_color
  /\ level_color (Some "") = default_color
  /\ (forall o : option string,
        In (level_color o)
          [default_color; "#16a34a"; "#ea580c"; "#b91c1c"; "#7f1d1d"]).
Proof.
  intro r.
  assert (Hcase : forall s t : string,
             lower s = lower t -> level_color (Some s) = level_color (Some t)).
  { intros s t H.
    rewrite <- (level_color_of_lower s), <- (level_color_of_lower t).
    now rewrite H. }
  assert (Hrange : forall o : option string,
             In (level_color o)
               [default_color; "#16a34a"; "#ea580c"; "#b91c1c"; "#7f1d1d"]).
  { intros [s |]; [| left; reflexivity].
    unfold level_color.
    destruct (s =? "")%string; [left; reflexivity |].
    cbv zeta.
    destruct (upper s =? "LOW")%string; [cbn [In]; auto |].
    destruct (upper s =? "MEDIUM")%string; [cbn [In]; auto |].
    destruct (upper s =? "HIGH")%string; [cbn [In]; auto |].
    destruct (upper s =? "CRITICAL")%string; cbn [In]; auto 6. }
  assert (Hnames : forall s : string,
             (lower s = "low" -> level_color (Some s) = "#16a34a")
             /\ (lower s = "medium" -> level_color (Some s) = "#ea580c")
             /\ (lower s = "high" -> level_color (Some s) = "#b91c1c")
             /\ (lower s = "critical" -> level_color (Some s) = "#7f1d1d")).
  { intro s. repeat split; intro H;
      rewrite <- (level_color_of_lower s), H; reflexivity. }
  subst r.
  destruct detections as [| det rest].
  - repeat split; try discriminate; try apply Hnames; auto.
  - rewrite global_severity_level_eq, mitigated_severity_level_eq,
      !level_color_of_severity_level, !severity_level_spec.
    destruct (spec_level (global_score_of det context));
      destruct (spec_level (mitigated_score_at det context));
      (split; [discriminate |]); (split; [discriminate |]);
      (split; [intro H; first [reflexivity | discriminate H] |]);
      (split; [exact Hcase |]); (split; [exact Hnames |]);
      (split; [reflexivity |]); (split; [reflexivity |]); exact Hrange.
Qed.

Lemma level_color_of_engine_levels_witness :
  level_color (Some "High") = level_color (Some "hIGH")
  /\ level_color (Some "Critical") = "#7f1d1d".
Proof.
  pose proof (level_color_of_engine_levels "img_001" []
                (production_context "concrete" 8000))
    as H.
  cbv zeta in H.
  destruct H as [_ [_ [_ [Hcase [Hnames _]]]]].
  split.
  - apply Hcase. reflexivity.
  - apply (Hnames "Critical"). reflexivity.
Defined.
